(** * tempcloud: the file lifecycle of the Cloudflare worker

    A shallow embedding of [backend/src/index.ts], [backend/src/crypto.ts]
    and [backend/src/types.ts].  The two stores of the worker (the KV
    namespace [FILE_KV] and the R2 bucket [R2_BUCKET]) are finite maps that
    every route handler threads through a small state and exception monad,
    together with the trace of the store calls it awaited and the list of
    promises it handed to [executionCtx.waitUntil].  A platform call that
    throws (a KV put with a TTL under the service's minimum, a header value
    the runtime refuses) ends the handler, and [app.onError] answers 500. *)

From Stdlib Require Import ZArith List Ascii String Lia.
From Stdlib Require Import Strings.Byte.
From stdpp Require Import base option gmap strings pretty.

Import ListNotations.
Local Open Scope string_scope.
Local Open Scope Z_scope.

(** ** The platform digest

    [crypto.subtle.digest("SHA-256", data)] is a primitive of the Workers
    runtime, not code of the repository.  The handlers are stated over any
    digest function (class [WebCrypto]); the module below is the FIPS 180-4
    function on 32-bit words kept in [Z], used to run the handlers on
    concrete requests. *)

Module SHA256.

Definition w32 (x : Z) : Z := x mod 2 ^ 32.

Definition rotr (n x : Z) : Z :=
  Z.lor (Z.shiftr x n) (w32 (Z.shiftl x (32 - n))).

Definition Ch (x y z : Z) : Z :=
  Z.lxor (Z.land x y) (Z.land (w32 (Z.lnot x)) z).

Definition Maj (x y z : Z) : Z :=
  Z.lxor (Z.lxor (Z.land x y) (Z.land x z)) (Z.land y z).

Definition bsig0 (x : Z) : Z := Z.lxor (Z.lxor (rotr 2 x) (rotr 13 x)) (rotr 22 x).
Definition bsig1 (x : Z) : Z := Z.lxor (Z.lxor (rotr 6 x) (rotr 11 x)) (rotr 25 x).
Definition ssig0 (x : Z) : Z := Z.lxor (Z.lxor (rotr 7 x) (rotr 18 x)) (Z.shiftr x 3).
Definition ssig1 (x : Z) : Z := Z.lxor (Z.lxor (rotr 17 x) (rotr 19 x)) (Z.shiftr x 10).

(** The round constants are the first 32 bits of the fractional parts of
  the cube roots of the first 64 primes, the initial hash value those of
  the square roots of the first 8; both are computed rather than tabled. *)
Definition no_divisor_in (found : list Z) (n : Z) : bool :=
  forallb (fun p => negb (n mod p =? 0)) found.

Fixpoint first_primes (fuel : nat) (n : Z) (wanted : nat) (found : list Z) : list Z :=
  match fuel, wanted with
  | S fuel', S wanted' =>
    if no_divisor_in found n
    then first_primes fuel' (n + 1) wanted' (found ++ [n])
    else first_primes fuel' (n + 1) wanted found
  | _, _ => found
  end.

(** Integer cube root by bisection, with [lo ^ 3 <= n < hi ^ 3] throughout. *)
Fixpoint cbrt_between (fuel : nat) (lo hi n : Z) : Z :=
  match fuel with
  | O => lo
  | S fuel' =>
    let mid := (lo + hi) / 2 in
    if mid =? lo then lo
    else if mid * mid * mid <=? n then cbrt_between fuel' mid hi n
    else cbrt_between fuel' lo mid n
  end.

Definition K : list Z :=
  List.map (fun p => w32 (cbrt_between 64 0 (2 ^ 40) (p * 2 ^ 96)))
         (first_primes 400 2 64 []).

Definition H0 : list Z :=
  List.map (fun p => w32 (Z.sqrt (p * 2 ^ 64))) (first_primes 400 2 8 []).

(** Big-endian bytes of a word, most significant first. *)
Fixpoint be_bytes (n : nat) (x : Z) : list Z :=
  match n with
  | O => []
  | S k => (Z.shiftr x (8 * Z.of_nat k)) mod 256 :: be_bytes k x
  end.

Definition pad (msg : list Z) : list Z :=
  let len := Z.of_nat (length msg) in
  msg ++ [0x80] ++ repeat 0 (Z.to_nat ((55 - len) mod 64)) ++ be_bytes 8 (8 * len).

Fixpoint be_words (fuel : nat) (bs : list Z) : list Z :=
  match fuel, bs with
  | S k, b0 :: b1 :: b2 :: b3 :: rest =>
      (b0 * 2 ^ 24 + b1 * 2 ^ 16 + b2 * 2 ^ 8 + b3) :: be_words k rest
  | _, _ => []
  end.

Definition wd (ws : list Z) (i : nat) : Z := nth i ws 0.

(** Message schedule: [ws] holds W_0 .. W_(t-1) and grows by one word. *)
Fixpoint schedule (fuel : nat) (ws : list Z) : list Z :=
  match fuel with
  | O => ws
  | S k =>
      let t := length ws in
      let w := w32 (ssig1 (wd ws (t - 2)) + wd ws (t - 7)
                    + ssig0 (wd ws (t - 15)) + wd ws (t - 16)) in
      schedule k (ws ++ [w])
  end.

Record regs := Regs { ra : Z; rb : Z; rc : Z; rd : Z; re : Z; rf : Z; rg : Z; rh : Z }.

Definition round (s : regs) (kw : Z * Z) : regs :=
  let t1 := w32 (rh s + bsig1 (re s) + Ch (re s) (rf s) (rg s) + fst kw + snd kw) in
  let t2 := w32 (bsig0 (ra s) + Maj (ra s) (rb s) (rc s)) in
  Regs (w32 (t1 + t2)) (ra s) (rb s) (rc s) (w32 (rd s + t1)) (re s) (rf s) (rg s).

Definition regs_of (h : list Z) : regs :=
  Regs (wd h 0) (wd h 1) (wd h 2) (wd h 3) (wd h 4) (wd h 5) (wd h 6) (wd h 7).

Definition compress (h : list Z) (block : list Z) : list Z :=
  let ws := schedule 48 (be_words 16 block) in
  let s := fold_left round (combine K ws) (regs_of h) in
  [ w32 (wd h 0 + ra s); w32 (wd h 1 + rb s); w32 (wd h 2 + rc s);
    w32 (wd h 3 + rd s); w32 (wd h 4 + re s); w32 (wd h 5 + rf s);
    w32 (wd h 6 + rg s); w32 (wd h 7 + rh s) ].

Fixpoint blocks (fuel : nat) (h : list Z) (bs : list Z) : list Z :=
  match fuel, bs with
  | S k, _ :: _ => blocks k (compress h (firstn 64 bs)) (skipn 64 bs)
  | _, _ => h
  end.

Definition byte_of_Z (z : Z) : byte :=
  match Byte.of_N (Z.to_N (z mod 256)) with
  | Some b => b
  | None => x00
  end.

Definition Z_of_byte (b : byte) : Z := Z.of_N (Byte.to_N b).

Definition digest (data : list byte) : list byte :=
  let msg := pad (List.map Z_of_byte data) in
  let h := blocks (length msg) H0 msg in
  List.map byte_of_Z (List.concat (List.map (be_bytes 4) h)).

End SHA256.

(** The capability [crypto.subtle] of the runtime, reduced to the one call
  the worker makes. *)
Class WebCrypto := { subtle_digest_SHA256 : list byte -> list byte }.

Definition fips_crypto : WebCrypto := {| subtle_digest_SHA256 := SHA256.digest |}.

(** ** crypto.ts *)

Section Crypto.
Context `{WebCrypto}.

(** [new TextEncoder().encode(password)]: a [string] is kept as its UTF-8
    bytes. *)
Definition TextEncoder_encode (s : string) : list byte := list_byte_of_string s.

Definition hex_digit (n : N) : ascii :=
  if (n <? 10)%N then ascii_of_N (48 + n) else ascii_of_N (87 + n).

(** [b.toString(16).padStart(2, "0")] *)
Definition hex_byte (b : byte) : string :=
  let n := Byte.to_N b in
  String (hex_digit (n / 16)) (String (hex_digit (n mod 16)) EmptyString).

(** [hashArray.map(...).join] with the empty separator *)
Definition hex_join (bs : list byte) : string :=
  fold_right (fun b acc => hex_byte b ++ acc) EmptyString bs.

Definition hashPassword (password : string) : string :=
  let data := TextEncoder_encode password in
  let hashArray := subtle_digest_SHA256 data in
  hex_join hashArray.

Definition verifyPassword (password storedHash : string) : bool :=
  let hash := hashPassword password in
  String.eqb hash storedHash.

End Crypto.

(** ** types.ts *)

(** The worker bindings.  The three numeric bindings are decimal strings in
    [wrangler.toml]; they are kept as the integers [parseInt(_, 10)] reads. *)
Record Env := {
  BASE_URL : string;
  PRESIGNED_URL_TTL : Z;
  DEFAULT_FILE_TTL : Z;
  MAX_FILE_SIZE : Z;
  CORS_ORIGIN : string
}.

(** JS numbers are kept as integers; [null] is [None]. *)
Record FileMetadata := {
  filename : string;
  size : Z;
  mime : string;
  uploaded_at : Z;
  expires_at : Z;
  downloads_left : option Z;
  password_hash : option string;
  r2_key : string
}.

(** Optional members ([mime?], ...) are [None] when the JSON body omits them. *)
Record UploadInitRequest := {
  init_filename : string;
  init_size : Z;
  init_mime : option string;
  init_expires_in : option Z;
  init_max_downloads : option Z;
  init_password : option string
}.

Record UploadInitResponse := {
  upload_url : string;
  init_file_uuid : string;
  init_expires_at : Z
}.

Record UploadFinalizeRequest := { file_uuid : string }.

Inductive ActiveStatus := active.

Record UploadFinalizeResponse := {
  download_link : string;
  status : ActiveStatus
}.

Record FileInfoResponse := {
  info_filename : string;
  info_size : Z;
  info_mime : string;
  info_uploaded_at : Z;
  info_expires_at : Z;
  info_downloads_left : option Z;
  has_password : bool
}.

(** The [code] member of [ErrorResponse], one constructor per literal that
    index.ts sends; [INTERNAL_ERROR] is the one of [app.onError]. *)
Inductive ErrorCode :=
| INVALID_REQUEST
| FILE_TOO_LARGE
| UPLOAD_EXPIRED
| NOT_FOUND
| EMPTY_BODY
| FILE_MISSING
| EXPIRED
| LIMIT_REACHED
| PASSWORD_REQUIRED
| INVALID_PASSWORD
| INTERNAL_ERROR.

(** Headers of the streamed download. *)
Record Headers := {
  Content_Type : string;
  Content_Disposition : string;
  Content_Length : string;
  Cache_Control : string
}.

(** What a route handler returns.  [FileStream] is the 200 response of the
    download route; its last member is the handler's local [isLastDownload],
    which selects the cleanup and is not sent to the client. *)
Inductive Response :=
| JsonError (code : ErrorCode) (http_status : Z)
| InitOk (r : UploadInitResponse)
| PutOk (uuid : string)
| FinalizeOk (r : UploadFinalizeResponse)
| InfoOk (r : FileInfoResponse)
| FileStream (headers : Headers) (body : list byte) (isLastDownload : bool)
| DeleteOk.

(** ** The request context *)

(** The request context [c]: the bindings, and the second the handler reads
    with [Math.floor(Date.now() / 1000)]. *)
Record Ctx := {
  env : Env;
  now : Z
}.

(** ** The two stores *)

(** A KV entry: the metadata that [JSON.stringify] wrote and [JSON.parse]
    reads back, with the [expirationTtl] of the write. *)
Record KVEntry := {
  kv_value : FileMetadata;
  expirationTtl : Z
}.

Record R2Object := {
  r2_body : list byte;
  httpMetadata_contentType : string;
  customMetadata_filename : string;
  customMetadata_uuid : string
}.

(** [r2Head.size] *)
Definition r2_size (o : R2Object) : Z := Z.of_nat (length (r2_body o)).

Inductive StoreCall :=
| KV_get (key : string)
| KV_put (key : string) (value : FileMetadata) (ttl : Z)
| KV_delete (key : string)
| R2_put (key : string)
| R2_head (key : string)
| R2_get (key : string)
| R2_delete (key : string).

(** [FILE_KV] holds the entries the KV service still serves, and
    [FILE_KV_expiration] the second at which each was written plus its TTL:
    from that second on the service may reclaim the entry (step [reclaim]
    below), and it never does so earlier.  [awaited] is the sequence of
    store calls whose promise the handlers awaited, oldest first, whether
    the promise resolved or rejected; [waitUntil] holds the keys of the R2
    deletions handed to [c.executionCtx.waitUntil], which run after the
    response. *)
Record World := {
  FILE_KV : gmap string KVEntry;
  FILE_KV_expiration : gmap string Z;
  R2_BUCKET : gmap string R2Object;
  awaited : list StoreCall;
  waitUntil : list string
}.

(** What awaiting a platform call gives: its value, or an exception. *)
Inductive Outcome (A : Type) :=
| Returned (a : A)
| Thrown.
Arguments Returned {A} a.
Arguments Thrown {A}.

Definition M (A : Type) : Type := World -> Outcome A * World.

Definition ret {A} (a : A) : M A := fun w => (Returned a, w).

Definition throw {A} : M A := fun w => (Thrown, w).

Definition bind {A B} (m : M A) (k : A -> M B) : M B :=
  fun w =>
    let (r, w') := m w in
    match r with
    | Returned a => k a w'
    | Thrown => (Thrown, w')
    end.

Notation "'let*' x ':=' m 'in' k" := (bind m (fun x => k))
  (at level 10, x name, m at level 100, k at level 200).

Definition call (e : StoreCall) (w : World) : World :=
  {| FILE_KV := FILE_KV w; FILE_KV_expiration := FILE_KV_expiration w;
     R2_BUCKET := R2_BUCKET w;
     awaited := awaited w ++ [e]; waitUntil := waitUntil w |}.

Definition set_kv (f : gmap string KVEntry -> gmap string KVEntry) (w : World) : World :=
  {| FILE_KV := f (FILE_KV w); FILE_KV_expiration := FILE_KV_expiration w;
     R2_BUCKET := R2_BUCKET w;
     awaited := awaited w; waitUntil := waitUntil w |}.

Definition set_expiration (f : gmap string Z -> gmap string Z) (w : World) : World :=
  {| FILE_KV := FILE_KV w; FILE_KV_expiration := f (FILE_KV_expiration w);
     R2_BUCKET := R2_BUCKET w;
     awaited := awaited w; waitUntil := waitUntil w |}.

Definition set_r2 (f : gmap string R2Object -> gmap string R2Object) (w : World) : World :=
  {| FILE_KV := FILE_KV w; FILE_KV_expiration := FILE_KV_expiration w;
     R2_BUCKET := f (R2_BUCKET w);
     awaited := awaited w; waitUntil := waitUntil w |}.

(** [await c.env.FILE_KV.get(key)] followed by [JSON.parse]. *)
Definition kv_get (key : string) : M (option FileMetadata) :=
  fun w => (Returned (kv_value <$> FILE_KV w !! key), call (KV_get key) w).

(** The smallest [expirationTtl] the KV service takes; a put with less is
    rejected. *)
Definition KV_MIN_TTL : Z := 60.

(** [await c.env.FILE_KV.put(key, JSON.stringify(value), { expirationTtl: ttl })],
    issued in the second [now c].  The promise rejects, and the store is
    left as it was, when [ttl] is under the minimum. *)
Definition kv_put (c : Ctx) (key : string) (value : FileMetadata) (ttl : Z) : M unit :=
  fun w =>
    if ttl <? KV_MIN_TTL then (Thrown, call (KV_put key value ttl) w)
    else
      (Returned tt,
       call (KV_put key value ttl)
         (set_kv (insert key {| kv_value := value; expirationTtl := ttl |})
            (set_expiration (insert key (now c + ttl)) w))).

(** [await c.env.FILE_KV.delete(key)]; deleting an absent key does nothing. *)
Definition kv_delete (key : string) : M unit :=
  fun w => (Returned tt,
            call (KV_delete key) (set_kv (delete key) (set_expiration (delete key) w))).

Definition r2_put (key : string) (o : R2Object) : M unit :=
  fun w => (Returned tt, call (R2_put key) (set_r2 (insert key o) w)).

Definition r2_head (key : string) : M (option R2Object) :=
  fun w => (Returned (R2_BUCKET w !! key), call (R2_head key) w).

Definition r2_get (key : string) : M (option R2Object) :=
  fun w => (Returned (R2_BUCKET w !! key), call (R2_get key) w).

Definition r2_delete (key : string) : M unit :=
  fun w => (Returned tt, call (R2_delete key) (set_r2 (delete key) w)).

(** [c.executionCtx.waitUntil(c.env.R2_BUCKET.delete(key))] *)
Definition waitUntil_r2_delete (key : string) : M unit :=
  fun w => (Returned tt,
            {| FILE_KV := FILE_KV w; FILE_KV_expiration := FILE_KV_expiration w;
               R2_BUCKET := R2_BUCKET w;
               awaited := awaited w; waitUntil := waitUntil w ++ [key] |}).

(** The runtime settles the promises given to [waitUntil] once the response
    has been handed over. *)
Definition settle (w : World) : World :=
  {| FILE_KV := FILE_KV w; FILE_KV_expiration := FILE_KV_expiration w;
     R2_BUCKET := fold_left (fun b key => delete key b) (waitUntil w) (R2_BUCKET w);
     awaited := awaited w;
     waitUntil := [] |}.

(** The TTL of [key] has run out by second [t]. *)
Definition lapsed (t : Z) (w : World) (key : string) : bool :=
  match FILE_KV_expiration w !! key with
  | Some x => x <=? t
  | None => false
  end.

Definition reclaim_key (t : Z) (w : World) (key : string) : World :=
  if lapsed t w key
  then set_kv (delete key) (set_expiration (delete key) w)
  else w.

(** The KV service reclaims, at second [t], those of [keys] whose TTL has
    run out.  Expiry is best effort: which lapsed entries go, and when, is
    the service's choice, so [keys] is any list. *)
Definition reclaim (t : Z) (keys : list string) (w : World) : World :=
  fold_left (reclaim_key t) keys w.

(** A route as the application serves it. *)
Definition Route : Type := World -> Response * World.

(** [app.onError]: an exception that escapes a handler is logged and
    answered with status 500. *)
Definition onError (handler : M Response) : Route :=
  fun w =>
    let (r, w') := handler w in
    match r with
    | Returned resp => (resp, w')
    | Thrown => (JsonError INTERNAL_ERROR 500, w')
    end.

(** ** JavaScript idioms used by index.ts *)

(** [!!s] for a string: only the empty string is falsy. *)
Definition truthy_string (s : string) : bool := negb (String.eqb s EmptyString).

(** [!!n] for an integer number: only zero is falsy. *)
Definition truthy_number (n : Z) : bool := negb (n =? 0).

(** [a || b] on a possibly missing string. *)
Definition or_string (a : option string) (b : string) : string :=
  match a with
  | Some s => if truthy_string s then s else b
  | None => b
  end.

(** [n && n > 0 ? n : d] on a possibly missing number, [d] already chosen. *)
Definition positive_or {A} (n : option Z) (f : Z -> A) (d : A) : A :=
  match n with
  | Some v => if truthy_number v && (v >? 0) then f v else d
  | None => d
  end.

(** [encodeURIComponent] on UTF-8 bytes: the unreserved characters
    [A-Z a-z 0-9 - _ . ! ~ * ' ( )] stay, every other byte becomes [%XX].
    A string is kept as the bytes of its UTF-8 encoding, so a JavaScript
    string with a lone surrogate, on which the function throws, has no
    counterpart here. *)
Definition uri_unreserved (n : N) : bool :=
  ((65 <=? n) && (n <=? 90) || (97 <=? n) && (n <=? 122) || (48 <=? n) && (n <=? 57)
   || (n =? 45) || (n =? 95) || (n =? 46) || (n =? 33) || (n =? 126) || (n =? 42)
   || (n =? 39) || (n =? 40) || (n =? 41))%N.

Definition HEX_digit (n : N) : ascii :=
  if (n <? 10)%N then ascii_of_N (48 + n) else ascii_of_N (55 + n).

Fixpoint encodeURIComponent (s : string) : string :=
  match s with
  | EmptyString => EmptyString
  | String a rest =>
      let n := N_of_ascii a in
      if uri_unreserved n then String a (encodeURIComponent rest)
      else String "%" (String (HEX_digit (n / 16))
             (String (HEX_digit (n mod 16)) (encodeURIComponent rest)))
  end.

(** The bytes [headers.set] strips from both ends of a value: tab, line
    feed, carriage return and space. *)
Definition is_http_whitespace (a : ascii) : bool :=
  let n := N_of_ascii a in
  ((n =? 9) || (n =? 10) || (n =? 13) || (n =? 32))%N.

(** The bytes a header value must not contain: NUL, line feed and carriage
    return. *)
Definition is_forbidden_in_header (a : ascii) : bool :=
  let n := N_of_ascii a in
  ((n =? 0) || (n =? 10) || (n =? 13))%N.

Fixpoint trim_start (s : string) : string :=
  match s with
  | EmptyString => EmptyString
  | String a rest => if is_http_whitespace a then trim_start rest else s
  end.

Fixpoint trim_end (s : string) : string :=
  match s with
  | EmptyString => EmptyString
  | String a rest =>
      match trim_end rest with
      | EmptyString => if is_http_whitespace a then EmptyString else String a EmptyString
      | kept => String a kept
      end
  end.

Fixpoint has_forbidden_byte (s : string) : bool :=
  match s with
  | EmptyString => false
  | String a rest => is_forbidden_in_header a || has_forbidden_byte rest
  end.

(** The value [headers.set(name, value)] stores: [value] without its
    surrounding whitespace, or nothing when what is left contains a
    forbidden byte and the call throws a TypeError. *)
Definition header_value (value : string) : option string :=
  let v := trim_end (trim_start value) in
  if has_forbidden_byte v then None else Some v.

(** [`${n}`] and [n.toString()] for an integer. *)
Definition toString (n : Z) : string := pretty n.

(** ** index.ts *)

Definition pendingKeyOf (uuid : string) : string := "pending:" ++ uuid.
Definition activeKeyOf (uuid : string) : string := "file:" ++ uuid.

Section Routes.
Context `{WebCrypto}.

(** POST /api/v1/upload/init.  [fileUUID] is the value [generateUUID()]
    draws; [body] is [None] when the JSON body does not parse. *)
Definition upload_init (c : Ctx) (fileUUID : string) (body : option UploadInitRequest)
  : Route :=
  onError (
  match body with
  | None => ret (JsonError INVALID_REQUEST 400)
  | Some body =>
    if negb (truthy_string (init_filename body)) || negb (truthy_number (init_size body))
    then ret (JsonError INVALID_REQUEST 400)
    else
      let maxSize := MAX_FILE_SIZE (env c) in
      if init_size body >? maxSize then ret (JsonError FILE_TOO_LARGE 413)
      else
        let r2Key := "uploads/" ++ fileUUID ++ "/" ++ init_filename body in
        let defaultTTL := DEFAULT_FILE_TTL (env c) in
        let expiresIn := positive_or (init_expires_in body) (fun v => v) defaultTTL in
        let now := now c in
        let expiresAt := now + expiresIn in
        let passwordHash :=
          match init_password body with
          | Some p =>
              if truthy_string p && (0 <? Z.of_nat (String.length p))
              then Some (hashPassword p) else None
          | None => None
          end in
        let metadata :=
          {| filename := init_filename body;
             size := init_size body;
             mime := or_string (init_mime body) "application/octet-stream";
             uploaded_at := now;
             expires_at := expiresAt;
             downloads_left := positive_or (init_max_downloads body) Some None;
             password_hash := passwordHash;
             r2_key := r2Key |} in
        let kvKey := pendingKeyOf fileUUID in
        let* _ := kv_put c kvKey metadata 900 in
        let presignedTTL := PRESIGNED_URL_TTL (env c) in
        let uploadUrl :=
          BASE_URL (env c) ++ "/api/v1/upload/put/" ++ fileUUID
            ++ "?expires=" ++ toString (now + presignedTTL) in
        ret (InitOk {| upload_url := uploadUrl;
                       init_file_uuid := fileUUID;
                       init_expires_at := expiresAt |})
  end).

(** PUT /api/v1/upload/put/:uuid.  [expiresParam] is the parsed [expires]
    query parameter, [body] the request body stream if there is one. *)
Definition upload_put (c : Ctx) (uuid : string) (expiresParam : option Z)
    (body : option (list byte)) : Route :=
  onError (
  let expired :=
    match expiresParam with
    | Some expiresAt => now c >? expiresAt
    | None => false
    end in
  if expired then ret (JsonError UPLOAD_EXPIRED 410)
  else
    let kvKey := pendingKeyOf uuid in
    let* raw := kv_get kvKey in
    match raw with
    | None => ret (JsonError NOT_FOUND 404)
    | Some metadata =>
      match body with
      | None => ret (JsonError EMPTY_BODY 400)
      | Some bytes =>
        let* _ := r2_put (r2_key metadata)
                    {| r2_body := bytes;
                       httpMetadata_contentType := mime metadata;
                       customMetadata_filename := filename metadata;
                       customMetadata_uuid := uuid |} in
        ret (PutOk uuid)
      end
    end).

Definition with_size (m : FileMetadata) (n : Z) : FileMetadata :=
  {| filename := filename m; size := n; mime := mime m;
     uploaded_at := uploaded_at m; expires_at := expires_at m;
     downloads_left := downloads_left m; password_hash := password_hash m;
     r2_key := r2_key m |}.

Definition with_downloads_left (m : FileMetadata) (d : option Z) : FileMetadata :=
  {| filename := filename m; size := size m; mime := mime m;
     uploaded_at := uploaded_at m; expires_at := expires_at m;
     downloads_left := d; password_hash := password_hash m;
     r2_key := r2_key m |}.

(** POST /api/v1/upload/finalize *)
Definition upload_finalize (c : Ctx) (body : option UploadFinalizeRequest) : Route :=
  onError (
  match body with
  | None => ret (JsonError INVALID_REQUEST 400)
  | Some body =>
    if negb (truthy_string (file_uuid body)) then ret (JsonError INVALID_REQUEST 400)
    else
      let pendingKey := pendingKeyOf (file_uuid body) in
      let* raw := kv_get pendingKey in
      match raw with
      | None => ret (JsonError NOT_FOUND 404)
      | Some metadata =>
        let* r2Head := r2_head (r2_key metadata) in
        match r2Head with
        | None => ret (JsonError FILE_MISSING 404)
        | Some r2Head =>
          let metadata := with_size metadata (r2_size r2Head) in
          let now := now c in
          let ttl := expires_at metadata - now in
          if ttl <=? 0 then ret (JsonError EXPIRED 410)
          else
            let activeKey := activeKeyOf (file_uuid body) in
            let* _ := kv_put c activeKey metadata ttl in
            let* _ := kv_delete pendingKey in
            let downloadLink := BASE_URL (env c) ++ "/d/" ++ file_uuid body in
            ret (FinalizeOk {| download_link := downloadLink; status := active |})
        end
      end
  end).

(** GET /api/v1/file/:uuid/info *)
Definition file_info (c : Ctx) (uuid : string) : Route :=
  onError (
  let* raw := kv_get (activeKeyOf uuid) in
  match raw with
  | None => ret (JsonError NOT_FOUND 404)
  | Some metadata =>
    ret (InfoOk {| info_filename := filename metadata;
                   info_size := size metadata;
                   info_mime := mime metadata;
                   info_uploaded_at := uploaded_at metadata;
                   info_expires_at := expires_at metadata;
                   info_downloads_left := downloads_left metadata;
                   has_password := bool_decide (password_hash metadata <> None) |})
  end).

(** [metadata.downloads_left !== null && metadata.downloads_left <= 0] *)
Definition at_limit (d : option Z) : bool :=
  match d with
  | Some n => n <=? 0
  | None => false
  end.

(** [headers.set("Content-Type", value)]: the stored value, or a TypeError. *)
Definition headers_set (value : string) : M string :=
  match header_value value with
  | Some v => ret v
  | None => throw
  end.

(** The four headers of the stream, [contentType] being what
    [headers.set] stored for the record's [mime].  The other three values
    (an encoded filename between quotes, the digits of a number, a constant)
    have nothing for [headers.set] to strip or to refuse. *)
Definition stream_headers (contentType : string) (metadata : FileMetadata) : Headers :=
  {| Content_Type := contentType;
     Content_Disposition :=
       "attachment; filename=" ++ String (ascii_of_nat 34)
         (encodeURIComponent (filename metadata) ++ String (ascii_of_nat 34) EmptyString);
     Content_Length := toString (size metadata);
     Cache_Control := "no-store" |}.

(** The headers of the stream for a record whose [mime] the runtime takes
    as a header value: the [mime] without its surrounding whitespace. *)
Definition download_headers (metadata : FileMetadata) : Headers :=
  stream_headers (trim_end (trim_start (mime metadata))) metadata.

(** GET /api/v1/file/:uuid/download.  [query] is [c.req.query("password")]
    and [header] is [c.req.header("X-File-Password")]. *)
Definition file_download (c : Ctx) (uuid : string) (query header : option string)
  : Route :=
  onError (
  let kvKey := activeKeyOf uuid in
  let* raw := kv_get kvKey in
  match raw with
  | None => ret (JsonError NOT_FOUND 404)
  | Some metadata =>
    let now := now c in
    if now >? expires_at metadata then
      let* _ := kv_delete kvKey in
      ret (JsonError EXPIRED 410)
    else if at_limit (downloads_left metadata) then
      let* _ := kv_delete kvKey in
      let* _ := r2_delete (r2_key metadata) in
      ret (JsonError LIMIT_REACHED 410)
    else
      let password := or_string query (or_string header EmptyString) in
      let gate :=
        match password_hash metadata with
        | Some stored =>
            if negb (truthy_string password) then Some (JsonError PASSWORD_REQUIRED 401)
            else if negb (verifyPassword password stored)
            then Some (JsonError INVALID_PASSWORD 403)
            else None
        | None => None
        end in
      match gate with
      | Some refusal => ret refusal
      | None =>
        let metadata :=
          with_downloads_left metadata
            (match downloads_left metadata with
             | Some n => Some (n - 1)
             | None => None
             end) in
        let isLastDownload := at_limit (downloads_left metadata) in
        let* _ :=
          if negb isLastDownload && bool_decide (downloads_left metadata <> None) then
            let ttl := expires_at metadata - now in
            if ttl >? 0 then kv_put c kvKey metadata ttl else ret tt
          else ret tt in
        let* r2Object := r2_get (r2_key metadata) in
        match r2Object with
        | None =>
          let* _ := kv_delete kvKey in
          ret (JsonError FILE_MISSING 404)
        | Some r2Object =>
          let* _ :=
            if isLastDownload then
              let* _ := kv_delete kvKey in
              waitUntil_r2_delete (r2_key metadata)
            else ret tt in
          let* contentType := headers_set (mime metadata) in
          let headers := stream_headers contentType metadata in
          ret (FileStream headers (r2_body r2Object) isLastDownload)
        end
      end
  end).

(** DELETE /api/v1/file/:uuid.  [Promise.all] starts the R2 deletion, then
    the KV deletion, and awaits both. *)
Definition file_delete (c : Ctx) (uuid : string) : Route :=
  onError (
  let kvKey := activeKeyOf uuid in
  let* raw := kv_get kvKey in
  match raw with
  | None => ret (JsonError NOT_FOUND 404)
  | Some metadata =>
    let* _ := r2_delete (r2_key metadata) in
    let* _ := kv_delete kvKey in
    ret DeleteOk
  end).

End Routes.

(** ** Sequential clients *)

(** One download request: the second at which it is served, the two
    places a password can travel in, and the keys the KV service reclaims,
    if their TTL has run out, before the request arrives. *)
Record DownloadRequest := {
  at_time : Z;
  query_password : option string;
  header_password : option string;
  store_reclaims : list string
}.

Section Clients.
Context `{WebCrypto}.

(** One request served to completion: the store has reclaimed what it
    chose to, the handler runs, the response is handed over, then the
    promises given to [waitUntil] settle. *)
Definition serve_download (e : Env) (uuid : string) (r : DownloadRequest) (w : World)
  : Response * World :=
  let (resp, w') :=
    file_download {| env := e; now := at_time r |} uuid
      (query_password r) (header_password r)
      (reclaim (at_time r) (store_reclaims r) w) in
  (resp, settle w').

(** Requests served one after the other, responses in order. *)
Fixpoint serve_downloads (e : Env) (uuid : string) (rs : list DownloadRequest) (w : World)
  : list Response * World :=
  match rs with
  | [] => ([], w)
  | r :: rest =>
      let (resp, w1) := serve_download e uuid r w in
      let (resps, w2) := serve_downloads e uuid rest w1 in
      (resp :: resps, w2)
  end.

End Clients.

(** Refusals of the password gate of the download route. *)
Definition is_password_refusal (r : Response) : bool :=
  match r with
  | JsonError PASSWORD_REQUIRED _ | JsonError INVALID_PASSWORD _ => true
  | _ => false
  end.

(** ** Fixtures for the concrete scenarios *)

Definition env0 : Env :=
  {| BASE_URL := "http://localhost:8787";
     PRESIGNED_URL_TTL := 600;
     DEFAULT_FILE_TTL := 86400;
     MAX_FILE_SIZE := 104857600;
     CORS_ORIGIN := "*" |}.

Definition ctx_at (t : Z) : Ctx := {| env := env0; now := t |}.

Definition empty_world : World :=
  {| FILE_KV := ∅; FILE_KV_expiration := ∅; R2_BUCKET := ∅;
     awaited := []; waitUntil := [] |}.

Definition uuid0 : string := "3f2c8a1e-0000-4000-8000-000000000001".

Definition ten_bytes : list byte := list_byte_of_string "0123456789".

(** A ten-byte file, uploaded at second 1000 for 60 seconds. *)
Definition a_txt (d : option Z) (p : option string) : FileMetadata :=
  {| filename := "a.txt"; size := 10; mime := "text/plain";
     uploaded_at := 1000; expires_at := 1060;
     downloads_left := d; password_hash := p;
     r2_key := "uploads/" ++ uuid0 ++ "/a.txt" |}.

Definition a_txt_blob : R2Object :=
  {| r2_body := ten_bytes; httpMetadata_contentType := "text/plain";
     customMetadata_filename := "a.txt"; customMetadata_uuid := uuid0 |}.

(** The world in which [m] is the active record of [uuid0], put 60 seconds
    before [expires_at m], its blob in place; the store keeps the record
    until [expires_at m]. *)
Definition active_world (m : FileMetadata) : World :=
  {| FILE_KV := {[ activeKeyOf uuid0 := {| kv_value := m; expirationTtl := 60 |} ]};
     FILE_KV_expiration := {[ activeKeyOf uuid0 := expires_at m ]};
     R2_BUCKET := {[ r2_key m := a_txt_blob ]};
     awaited := []; waitUntil := [] |}.

Definition init_a_txt (sz : Z) (maxd : option Z) (pw : option string) : UploadInitRequest :=
  {| init_filename := "a.txt"; init_size := sz; init_mime := Some "text/plain";
     init_expires_in := Some 60; init_max_downloads := maxd; init_password := pw |}.

Definition active_entry (m : FileMetadata) : KVEntry :=
  {| kv_value := m; expirationTtl := 60 |}.

(** The world in which [m] waits under the pending key of [uuid0]; the blob
    is in the bucket when [uploaded] is set. *)
Definition pending_world (m : FileMetadata) (uploaded : bool) : World :=
  {| FILE_KV := {[ pendingKeyOf uuid0 := {| kv_value := m; expirationTtl := 900 |} ]};
     FILE_KV_expiration := {[ pendingKeyOf uuid0 := uploaded_at m + 900 ]};
     R2_BUCKET := if uploaded then {[ r2_key m := a_txt_blob ]} else ∅;
     awaited := []; waitUntil := [] |}.

(** A download request without a password, served at second [t], the
    store having reclaimed nothing. *)
Definition req_at (t : Z) : DownloadRequest :=
  {| at_time := t; query_password := None; header_password := None;
     store_reclaims := [] |}.


(** A ten-byte file, uploaded at second 1000 for 4000 seconds. *)
Definition b_txt (d : option Z) (p : option string) : FileMetadata :=
  {| filename := "b.txt"; size := 10; mime := "text/plain";
     uploaded_at := 1000; expires_at := 5000;
     downloads_left := d; password_hash := p;
     r2_key := "uploads/" ++ uuid0 ++ "/b.txt" |}.

Definition init_b_txt (sz : Z) (maxd : option Z) (pw : option string) : UploadInitRequest :=
  {| init_filename := "b.txt"; init_size := sz; init_mime := Some "text/plain";
     init_expires_in := Some 4000; init_max_downloads := maxd; init_password := pw |}.


(** Init at second 1000 for 4000 seconds and one download, put of ten bytes,
    finalize, then two downloads; the responses in order. *)
Definition lifecycle_responses : list Response :=
  let w0 := empty_world in
  let (r1, w1) :=
    upload_init (H := fips_crypto) (ctx_at 1000) uuid0
      (Some (init_b_txt 10 (Some 1) None)) w0 in
  let (r2, w2) := upload_put (ctx_at 1001) uuid0 (Some 1600) (Some ten_bytes) w1 in
  let (r3, w3) := upload_finalize (ctx_at 1002) (Some {| file_uuid := uuid0 |}) w2 in
  let (r4, w4) := serve_download (H := fips_crypto) env0 uuid0 (req_at 1003) w3 in
  let (r5, w5) := serve_download (H := fips_crypto) env0 uuid0 (req_at 1004) w4 in
  [r1; r2; r3; r4; r5].

(** ** index.ts, the remaining route and the routing table *)

(** The text of [s] before its first question mark: [s.split("?")[0]]. *)
Fixpoint before_question (s : string) : string :=
  match s with
  | EmptyString => EmptyString
  | String a rest =>
      if Ascii.eqb a "?" then EmptyString else String a (before_question rest)
  end.

(** The text of [s] after its first question mark, if it has one. *)
Fixpoint after_question (s : string) : option string :=
  match s with
  | EmptyString => None
  | String a rest => if Ascii.eqb a "?" then Some rest else after_question rest
  end.

(** [s.includes("?")] *)
Definition includes_question (s : string) : bool :=
  match after_question s with
  | Some _ => true
  | None => false
  end.

(** [s.split("?")[1]], read only when [s] includes a question mark: the piece
    between the first mark and the second, or the end. *)
Definition split_question_1 (s : string) : string :=
  match after_question s with
  | Some rest => before_question rest
  | None => EmptyString
  end.

(** GET /d/:uuid.  [url] is [c.req.url]; the result is the target and the
    status given to [c.redirect]. *)
Definition short_link (c : Ctx) (uuid url : string) : string * Z :=
  let redirectUrl :=
    BASE_URL (env c) ++ "/api/v1/file/" ++ uuid ++ "/download"
      ++ (if includes_question url then "?" ++ split_question_1 url else EmptyString) in
  (redirectUrl, 302).

(** The requests the worker routes to a handler of the lifecycle, with the
    inputs each handler reads from the request. *)
Inductive Request :=
| POST_upload_init (fileUUID : string) (body : option UploadInitRequest)
| PUT_upload_put (uuid : string) (expiresParam : option Z) (body : option (list byte))
| POST_upload_finalize (body : option UploadFinalizeRequest)
| GET_file_info (uuid : string)
| GET_file_download (uuid : string) (query header : option string)
| DELETE_file (uuid : string).

(** The uuid a request is about; a finalize without a body is about none. *)
Definition request_uuid (r : Request) : string :=
  match r with
  | POST_upload_init fileUUID _ => fileUUID
  | PUT_upload_put uuid _ _ => uuid
  | POST_upload_finalize (Some body) => file_uuid body
  | POST_upload_finalize None => EmptyString
  | GET_file_info uuid => uuid
  | GET_file_download uuid _ _ => uuid
  | DELETE_file uuid => uuid
  end.

Section App.
Context `{WebCrypto}.

(** The routes registered on [app]. *)
Definition app (c : Ctx) (r : Request) : Route :=
  match r with
  | POST_upload_init fileUUID body => upload_init c fileUUID body
  | PUT_upload_put uuid expiresParam body => upload_put c uuid expiresParam body
  | POST_upload_finalize body => upload_finalize c body
  | GET_file_info uuid => file_info c uuid
  | GET_file_download uuid query header => file_download c uuid query header
  | DELETE_file uuid => file_delete c uuid
  end.

(** What happens to the worker over time: a request is served, the
    promises given to [waitUntil] so far settle, or the KV service reclaims
    entries whose TTL has run out. *)
Inductive Step :=
| Serve (c : Ctx) (r : Request)
| Settle
| Reclaim (t : Z) (keys : list string).

Fixpoint run (steps : list Step) (w : World) : list Response * World :=
  match steps with
  | [] => ([], w)
  | Serve c r :: rest =>
      let (resp, w1) := app c r w in
      let (resps, w2) := run rest w1 in
      (resp :: resps, w2)
  | Settle :: rest => run rest (settle w)
  | Reclaim t keys :: rest => run rest (reclaim t keys w)
  end.

End App.

(** ** The client, lib/api.ts *)

(** [formatTimeLeft(expiresAt)], with [now] the second the browser reads from
    [Math.floor(Date.now() / 1000)]. *)
Definition formatTimeLeft (now expiresAt : Z) : string :=
  let diff := expiresAt - now in
  if diff <=? 0 then "Expired"
  else if diff <? 60 then toString diff ++ "s"
  else if diff <? 3600 then toString (diff / 60) ++ "m"
  else if diff <? 86400 then toString (diff / 3600) ++ "h"
  else toString (diff / 86400) ++ "d".

(** [getDownloadUrl(uuid, password)], with [API_BASE] the configured origin. *)
Definition getDownloadUrl (API_BASE uuid : string) (password : option string) : string :=
  let params :=
    match password with
    | Some p => if truthy_string p then "?password=" ++ encodeURIComponent p else EmptyString
    | None => EmptyString
    end in
  API_BASE ++ "/api/v1/file/" ++ uuid ++ "/download" ++ params.

(** ** Well-formed stores *)

(** A download counter as the handlers store it: absent, or positive. *)
Definition counter_ok (d : option Z) : bool :=
  match d with
  | Some n => 0 <? n
  | None => true
  end.

(** Every record in the KV store carries a counter that is absent or positive. *)
Definition counters_positive (w : World) : Prop :=
  map_Forall (fun _ e => counter_ok (downloads_left (kv_value e)) = true) (FILE_KV w).

(** A store call that is not a KV put, or a KV put with a positive TTL. *)
Definition put_ttl_positive (e : StoreCall) : bool :=
  match e with
  | KV_put _ _ ttl => 0 <? ttl
  | _ => true
  end.

Definition is_error (r : Response) : bool :=
  match r with
  | JsonError _ _ => true
  | _ => false
  end.

Definition no_question (s : string) : bool := negb (includes_question s).


(** The lifetime [upload_init] resolves for a request. *)
Definition resolved_ttl (c : Ctx) (body : UploadInitRequest) : Z :=
  match init_expires_in body with
  | Some v => if 0 <? v then v else DEFAULT_FILE_TTL (env c)
  | None => DEFAULT_FILE_TTL (env c)
  end.

(** Answers of the download route after which the file is over: the three
    cleanups and the stream of the last permitted download. *)
Definition ends_file (r : Response) : bool :=
  match r with
  | JsonError EXPIRED _ | JsonError LIMIT_REACHED _ | JsonError FILE_MISSING _ => true
  | FileStream _ _ true => true
  | _ => false
  end.

(** The supplied password opens the gate of a record: there is no hash, or
    the password is non-empty and hashes to the stored value. *)
Definition opens_gate `{WebCrypto} (m : FileMetadata) (password : string) : Prop :=
  match password_hash m with
  | Some stored => password <> EmptyString /\ hashPassword password = stored
  | None => True
  end.



(** A lower-case hexadecimal digit, [0-9a-f]. *)
Definition is_lower_hex (a : ascii) : bool :=
  let n := N_of_ascii a in
  ((48 <=? n) && (n <=? 57) || (97 <=? n) && (n <=? 102))%N.

(** A character [encodeURIComponent] can emit: unreserved, or the percent
    sign of an escape. *)
Definition is_uri_safe (a : ascii) : bool :=
  uri_unreserved (N_of_ascii a) || (N_of_ascii a =? 37)%N.

Fixpoint string_forall (f : ascii -> bool) (s : string) : bool :=
  match s with
  | EmptyString => true
  | String a rest => f a && string_forall f rest
  end.

(** [s] holds no apostrophe, the one character that [encodeURIComponent]
    leaves as it is and that a URL parser rewrites, as [%27], in the query
    of an http URL. *)
Definition no_apostrophe (s : string) : bool :=
  string_forall (fun a => negb (Ascii.eqb a "'")) s.


(** A second id, for requests about another file. *)
Definition uuid1 : string := "3f2c8a1e-0000-4000-8000-000000000002".

(** The life of a one-download file as steps of the worker, followed by a
    second download and a delete. *)
Definition lifecycle_steps : list Step :=
  [ Serve (ctx_at 1000) (POST_upload_init uuid0 (Some (init_b_txt 10 (Some 1) None)));
    Serve (ctx_at 1001) (PUT_upload_put uuid0 (Some 1600) (Some ten_bytes));
    Serve (ctx_at 1002) (POST_upload_finalize (Some {| file_uuid := uuid0 |}));
    Serve (ctx_at 1003) (GET_file_info uuid0);
    Reclaim 1004 [pendingKeyOf uuid0; activeKeyOf uuid0];
    Serve (ctx_at 1004) (GET_file_download uuid0 None None);
    Settle;
    Serve (ctx_at 1005) (GET_file_download uuid0 None None);
    Serve (ctx_at 1006) (DELETE_file uuid0) ].

(** The active world of [uuid0] with the blob missing from the bucket. *)
Definition blobless_world (m : FileMetadata) : World :=
  {| FILE_KV := {[ activeKeyOf uuid0 := {| kv_value := m; expirationTtl := 60 |} ]};
     FILE_KV_expiration := {[ activeKeyOf uuid0 := expires_at m ]};
     R2_BUCKET := ∅;
     awaited := []; waitUntil := [] |}.


(** * Properties *)

Section Properties.
Context `{WebCrypto}.

(** Unfolds a route down to the store calls and the exception handling. *)
Ltac unfold_routes :=
  unfold app, upload_init, upload_put, upload_finalize, file_info, file_download,
    file_delete, onError, bind, kv_get, kv_put, kv_delete, r2_put, r2_head, r2_get,
    r2_delete, waitUntil_r2_delete, headers_set, throw, ret.

(** ** Store primitives *)

Lemma pending_active_distinct (u v : string) : pendingKeyOf u <> activeKeyOf v.
Proof. unfold pendingKeyOf, activeKeyOf. simpl. discriminate. Qed.

Lemma truthy_string_nonempty (s : string) : truthy_string s = true <-> s <> EmptyString.
Proof.
  unfold truthy_string. destruct s as [| a s]; simpl.
  - split; [discriminate | congruence].
  - split; [discriminate | reflexivity].
Qed.

Lemma gtb_false_le (a b : Z) : a <= b -> (a >? b) = false.
Proof. intros Hle. rewrite Z.gtb_ltb. apply Z.ltb_ge. exact Hle. Qed.

Lemma gtb_true_lt (a b : Z) : b < a -> (a >? b) = true.
Proof. intros Hlt. rewrite Z.gtb_ltb. apply Z.ltb_lt. exact Hlt. Qed.

Lemma truthy_number_nonzero (n : Z) : n <> 0 -> truthy_number n = true.
Proof. intros Hn. unfold truthy_number. apply negb_true_iff, Z.eqb_neq. exact Hn. Qed.

(** ** crypto.ts *)

Lemma verifyPassword_spec (p h : string) :
  verifyPassword p h = true <-> hashPassword p = h.
Proof. unfold verifyPassword. apply String.eqb_eq. Qed.


Lemma gate_open_result m password :
  opens_gate m password ->
  match password_hash m with
  | Some stored =>
      if negb (truthy_string password) then Some (JsonError PASSWORD_REQUIRED 401)
      else if negb (verifyPassword password stored)
           then Some (JsonError INVALID_PASSWORD 403)
           else None
  | None => None
  end = None.
Proof.
  unfold opens_gate. destruct (password_hash m) as [stored |]; [| reflexivity].
  intros [Hne Hhash]. apply truthy_string_nonempty in Hne. rewrite Hne. simpl.
  apply verifyPassword_spec in Hhash. rewrite Hhash. reflexivity.
Qed.


(** Case analysis on every remaining test of a handler. *)
Ltac all_branches :=
  repeat match goal with
         | |- context [if ?b then _ else _] => destruct b; simpl
         | |- context [match ?o with Some _ => _ | None => _ end] => destruct o; simpl
         end; reflexivity.



(** ** GET /api/v1/file/:uuid/info *)

(** C9. The info route makes no expiry check: whenever the active key
    still holds a record, it answers with the full public view of that
    record, whatever second the clock of the request shows and so also
    after [expires_at]; it only reads the store. *)
Theorem file_info_serves_expired_record c uuid w e :
  FILE_KV w !! activeKeyOf uuid = Some e ->
  file_info c uuid w =
    (InfoOk {| info_filename := filename (kv_value e);
               info_size := size (kv_value e);
               info_mime := mime (kv_value e);
               info_uploaded_at := uploaded_at (kv_value e);
               info_expires_at := expires_at (kv_value e);
               info_downloads_left := downloads_left (kv_value e);
               has_password := bool_decide (password_hash (kv_value e) <> None) |},
     call (KV_get (activeKeyOf uuid)) w).
Proof.
  intros Hkv. unfold file_info, bind, kv_get, ret, onError. rewrite Hkv. reflexivity.
Qed.

(** The same view is served before expiry: the clock is not consulted. *)
Lemma file_info_clock_irrelevant c c' uuid w :
  file_info c uuid w = file_info c' uuid w.
Proof. reflexivity. Qed.

(** ** POST /api/v1/upload/finalize *)

(** C7. When a pending record exists and the head probe of its [r2_key]
    finds nothing, finalize fails with the code of an incomplete upload
    (FILE_MISSING, status 404) and writes nothing: both stores are as
    before and the only calls made are the read and the probe. *)
Theorem finalize_without_blob_fails c uuid w e :
  uuid <> EmptyString ->
  FILE_KV w !! pendingKeyOf uuid = Some e ->
  R2_BUCKET w !! r2_key (kv_value e) = None ->
  exists w',
    upload_finalize c (Some {| file_uuid := uuid |}) w = (JsonError FILE_MISSING 404, w')
    /\ FILE_KV w' = FILE_KV w
    /\ R2_BUCKET w' = R2_BUCKET w
    /\ awaited w' = (awaited w ++ [KV_get (pendingKeyOf uuid); R2_head (r2_key (kv_value e))])%list
    /\ waitUntil w' = waitUntil w.
Proof.
  intros Hu Hkv Hr2. unfold upload_finalize, onError. simpl.
  apply truthy_string_nonempty in Hu. rewrite Hu. simpl.
  unfold bind, kv_get, r2_head, ret. rewrite Hkv. simpl. rewrite Hr2.
  eexists. split; [reflexivity |]. simpl.
  rewrite <- app_assoc. auto.
Qed.

(** ** POST /api/v1/upload/init *)

(** C3, as the code has it. A request whose filename is empty or whose
    declared size is zero fails with INVALID_REQUEST (status 400) and
    touches no store: the world is returned as it was. *)
Theorem upload_init_rejects_missing_fields c u body w :
  init_filename body = EmptyString \/ init_size body = 0 ->
  upload_init c u (Some body) w = (JsonError INVALID_REQUEST 400, w).
Proof.
  intros Hbad. unfold upload_init, onError.
  destruct Hbad as [Hf | Hs].
  - rewrite Hf. reflexivity.
  - rewrite Hs. simpl. rewrite orb_true_r. reflexivity.
Qed.

(** A negative declared size passes the presence test: when it is not above
    the ceiling, the pending record is written. *)
Lemma upload_init_accepts_negative_size c u body w :
  init_filename body <> EmptyString ->
  init_size body < 0 ->
  init_size body <= MAX_FILE_SIZE (env c) ->
  exists r w1 m,
    upload_init c u (Some body) w = (InitOk r, w1)
    /\ FILE_KV w1 !! pendingKeyOf u = Some {| kv_value := m; expirationTtl := 900 |}
    /\ size m = init_size body.
Proof.
  intros Hf Hneg Hmax. unfold upload_init, onError.
  apply truthy_string_nonempty in Hf. rewrite Hf. simpl.
  unfold truthy_number. replace (init_size body =? 0) with false
    by (symmetry; apply Z.eqb_neq; lia). simpl.
  replace (init_size body >? MAX_FILE_SIZE (env c)) with false
    by (symmetry; rewrite Z.gtb_ltb; apply Z.ltb_ge; lia).
  unfold bind, kv_put, ret. do 3 eexists. split; [reflexivity |]. simpl.
  rewrite lookup_insert_eq. split; reflexivity.
Qed.

(** ** DELETE /api/v1/file/:uuid *)

(** C4, as the code has it. Deleting an existing active record answers
    [status: deleted] and removes the record and its blob; deleting again
    fails with NOT_FOUND (status 404) and changes neither store. *)
Theorem file_delete_twice c c' uuid w e :
  FILE_KV w !! activeKeyOf uuid = Some e ->
  exists w1,
    file_delete c uuid w = (DeleteOk, w1)
    /\ FILE_KV w1 = delete (activeKeyOf uuid) (FILE_KV w)
    /\ R2_BUCKET w1 = delete (r2_key (kv_value e)) (R2_BUCKET w)
    /\ awaited w1 = (awaited w ++ [KV_get (activeKeyOf uuid);
                                   R2_delete (r2_key (kv_value e));
                                   KV_delete (activeKeyOf uuid)])%list
    /\ exists w2,
         file_delete c' uuid w1 = (JsonError NOT_FOUND 404, w2)
         /\ FILE_KV w2 = FILE_KV w1
         /\ R2_BUCKET w2 = R2_BUCKET w1.
Proof.
  intros Hkv. unfold file_delete, bind, kv_get, r2_delete, kv_delete, ret, onError.
  rewrite Hkv. simpl.
  eexists. split; [reflexivity |]. simpl.
  repeat split.
  - repeat rewrite <- app_assoc. reflexivity.
  - rewrite lookup_delete_eq. simpl. eexists. split; [reflexivity |]. simpl. auto.
Qed.

(** Deleting an id that has no active record is an error, not a no-op. *)
Lemma file_delete_absent c uuid w :
  FILE_KV w !! activeKeyOf uuid = None ->
  file_delete c uuid w = (JsonError NOT_FOUND 404, call (KV_get (activeKeyOf uuid)) w).
Proof.
  intros Hkv. unfold file_delete, bind, kv_get, ret, onError. rewrite Hkv. reflexivity.
Qed.

(** ** GET /api/v1/file/:uuid/download *)

(** C2. The download route checks in this order, stopping at the first
    failure: no active record, NOT_FOUND with only the read made; record
    past [expires_at], the KV entry is deleted and the answer is EXPIRED;
    [downloads_left] present and not positive, the KV entry and the blob
    are deleted and the answer is LIMIT_REACHED.  In both cleanup cases the
    deletions are awaited calls, reflected in the stores that come back
    with the error, and nothing is left to [waitUntil].  None of the three
    outcomes depends on the record's [password_hash] or on the password
    supplied, and a refusal of the password gate implies that the record
    exists, is not past its expiry and is not at its limit. *)
Theorem download_check_order c uuid query header w :
  let key := activeKeyOf uuid in
  (FILE_KV w !! key = None ->
     file_download c uuid query header w = (JsonError NOT_FOUND 404, call (KV_get key) w))
  /\ (forall e, FILE_KV w !! key = Some e ->
        now c > expires_at (kv_value e) ->
        exists w',
          file_download c uuid query header w = (JsonError EXPIRED 410, w')
          /\ FILE_KV w' = delete key (FILE_KV w)
          /\ R2_BUCKET w' = R2_BUCKET w
          /\ awaited w' = (awaited w ++ [KV_get key; KV_delete key])%list
          /\ waitUntil w' = waitUntil w)
  /\ (forall e n, FILE_KV w !! key = Some e ->
        now c <= expires_at (kv_value e) ->
        downloads_left (kv_value e) = Some n ->
        n <= 0 ->
        exists w',
          file_download c uuid query header w = (JsonError LIMIT_REACHED 410, w')
          /\ FILE_KV w' = delete key (FILE_KV w)
          /\ R2_BUCKET w' = delete (r2_key (kv_value e)) (R2_BUCKET w)
          /\ awaited w' = (awaited w ++ [KV_get key; KV_delete key;
                                         R2_delete (r2_key (kv_value e))])%list
          /\ waitUntil w' = waitUntil w)
  /\ (is_password_refusal (fst (file_download c uuid query header w)) = true ->
        exists e, FILE_KV w !! key = Some e
          /\ now c <= expires_at (kv_value e)
          /\ at_limit (downloads_left (kv_value e)) = false).
Proof.
  intros key. unfold file_download, onError. fold key.
  unfold bind, kv_get, kv_delete, r2_delete, ret.
  split; [| split; [| split]].
  - intros Hkv. rewrite Hkv. reflexivity.
  - intros e Hkv Hexp. rewrite Hkv. simpl.
    replace (now c >? expires_at (kv_value e)) with true
      by (symmetry; rewrite Z.gtb_ltb; apply Z.ltb_lt; lia).
    eexists. split; [reflexivity |]. simpl.
    rewrite <- app_assoc. auto.
  - intros e n Hkv Hexp Hleft Hn. rewrite Hkv. simpl.
    replace (now c >? expires_at (kv_value e)) with false
      by (symmetry; rewrite Z.gtb_ltb; apply Z.ltb_ge; lia).
    rewrite Hleft. simpl.
    replace (n <=? 0) with true by (symmetry; apply Z.leb_le; lia).
    eexists. split; [reflexivity |]. simpl.
    repeat rewrite <- app_assoc. auto.
  - destruct (FILE_KV w !! key) as [e |] eqn:Hkv; simpl; [| discriminate].
    destruct (now c >? expires_at (kv_value e)) eqn:Hexp; simpl; [discriminate |].
    destruct (at_limit (downloads_left (kv_value e))) eqn:Hlim; simpl; [discriminate |].
    intros _. exists e. split; [reflexivity |]. split; [| exact Hlim].
    rewrite Z.gtb_ltb in Hexp. apply Z.ltb_ge in Hexp. exact Hexp.
Qed.

(** ** The KV service reclaiming lapsed entries *)




(** Reclaiming never adds or alters an entry. *)
Lemma reclaim_subset t keys :
  forall w key e,
    FILE_KV (reclaim t keys w) !! key = Some e -> FILE_KV w !! key = Some e.
Proof.
  induction keys as [| k keys IH]; intros w key e; [auto |].
  unfold reclaim in *. simpl. intros Hkv. apply IH in Hkv.
  unfold reclaim_key in Hkv. destruct (lapsed t w k); [| exact Hkv].
  simpl in Hkv. apply lookup_delete_Some in Hkv. apply Hkv.
Qed.



(** ** [headers.set] *)



(** ** GET /api/v1/file/:uuid/download, the stream *)



(** A run that ends in a stream went past the password gate: the case in
    which the gate refuses contradicts the response. *)
Ltac past_gate :=
  let Hgate := fresh "Hgate" in
  match goal with
  | |- context [match ?g with Some refusal => _ | None => _ end] =>
      destruct g as [refusal |] eqn:Hgate
  end;
  [ destruct (password_hash _); [| discriminate Hgate];
    destruct (negb (truthy_string _)); [injection Hgate as <-; discriminate |];
    destruct (negb (verifyPassword _ _)); [injection Hgate as <-; discriminate |];
    discriminate Hgate
  | ].

(** X28. A successful download that is not the last one, served before
    [expires_at], leaves in the KV store the same record with
    [downloads_left] lowered by exactly one, and the stored value is not
    negative.  (With less than the store's minimum TTL left the put back is
    rejected and there is no successful download: [download_put_back_rejected].) *)
Theorem download_decrements_stored_counter c uuid query header w e n hdrs body w' :
  FILE_KV w !! activeKeyOf uuid = Some e ->
  downloads_left (kv_value e) = Some n ->
  now c < expires_at (kv_value e) ->
  file_download c uuid query header w = (FileStream hdrs body false, w') ->
  FILE_KV w' !! activeKeyOf uuid =
    Some {| kv_value := with_downloads_left (kv_value e) (Some (n - 1));
            expirationTtl := expires_at (kv_value e) - now c |}
  /\ 0 <= n - 1.
Proof.
  intros Hkv Hleft Hexp.
  unfold file_download, bind, kv_get, ret, onError. rewrite Hkv. simpl.
  destruct (now c >? expires_at (kv_value e)); simpl; [discriminate |].
  rewrite Hleft. simpl.
  destruct (n <=? 0); simpl; [discriminate |].
  past_gate.
  destruct (n - 1 <=? 0) eqn:Hlast; simpl.
  - unfold r2_get, kv_delete, waitUntil_r2_delete, headers_set, throw, ret. simpl.
    destruct (R2_BUCKET w !! r2_key (kv_value e)); simpl; [| discriminate].
    destruct (header_value (mime (kv_value e))); simpl; discriminate.
  - rewrite (gtb_true_lt (expires_at (kv_value e) - now c) 0) by lia.
    unfold kv_put, r2_get, kv_delete, headers_set, throw, ret. simpl.
    destruct (expires_at (kv_value e) - now c <? KV_MIN_TTL); simpl; [discriminate |].
    destruct (R2_BUCKET w !! r2_key (kv_value e)); simpl; [| discriminate].
    destruct (header_value (mime (kv_value e))); simpl; [| discriminate].
    intros Heq. injection Heq as _ _ <-. simpl.
    rewrite lookup_insert_eq. apply Z.leb_gt in Hlast. split; [reflexivity | lia].
Qed.

(** On the second [expires_at] itself the record is not expired yet, but
    the remaining time is zero and the decremented record is not put back:
    the stored counter stays as it was. *)
Lemma download_on_expiry_second_keeps_counter c uuid query header w e n hdrs body w' :
  FILE_KV w !! activeKeyOf uuid = Some e ->
  downloads_left (kv_value e) = Some n ->
  now c = expires_at (kv_value e) ->
  file_download c uuid query header w = (FileStream hdrs body false, w') ->
  FILE_KV w' = FILE_KV w.
Proof.
  intros Hkv Hleft Hexp.
  unfold file_download, bind, kv_get, ret, onError. rewrite Hkv. simpl.
  destruct (now c >? expires_at (kv_value e)); simpl; [discriminate |].
  rewrite Hleft. simpl.
  destruct (n <=? 0); simpl; [discriminate |].
  past_gate.
  destruct (n - 1 <=? 0) eqn:Hlast; simpl.
  - unfold r2_get, kv_delete, waitUntil_r2_delete, headers_set, throw, ret. simpl.
    destruct (R2_BUCKET w !! r2_key (kv_value e)); simpl; [| discriminate].
    destruct (header_value (mime (kv_value e))); simpl; discriminate.
  - rewrite (gtb_false_le (expires_at (kv_value e) - now c) 0) by lia.
    unfold r2_get, kv_delete, headers_set, throw, ret. simpl.
    destruct (R2_BUCKET w !! r2_key (kv_value e)); simpl; [| discriminate].
    destruct (header_value (mime (kv_value e))); simpl; [| discriminate].
    intros Heq. injection Heq as _ _ <-. reflexivity.
Qed.

(** With more than one download left and between 1 and 59 seconds on the
    clock, the put back of the decremented record is rejected by the
    store: the request is answered 500 before the blob is read, and the
    stores are as they were. *)
Theorem download_put_back_rejected c uuid query header w e n :
  FILE_KV w !! activeKeyOf uuid = Some e ->
  downloads_left (kv_value e) = Some n ->
  1 < n ->
  opens_gate (kv_value e) (or_string query (or_string header EmptyString)) ->
  0 < expires_at (kv_value e) - now c < KV_MIN_TTL ->
  exists w',
    file_download c uuid query header w = (JsonError INTERNAL_ERROR 500, w')
    /\ awaited w' =
         (awaited w ++
            [KV_get (activeKeyOf uuid);
             KV_put (activeKeyOf uuid)
               (with_downloads_left (kv_value e) (Some (n - 1)))
               (expires_at (kv_value e) - now c)])%list
    /\ FILE_KV w' = FILE_KV w
    /\ R2_BUCKET w' = R2_BUCKET w
    /\ waitUntil w' = waitUntil w.
Proof.
  intros Hkv Hleft Hn Hgate [Hpos Hshort].
  unfold file_download, bind, kv_get, ret, onError. rewrite Hkv. simpl.
  rewrite (gtb_false_le (now c) (expires_at (kv_value e))) by lia.
  rewrite Hleft. simpl.
  replace (n <=? 0) with false by (symmetry; apply Z.leb_gt; lia).
  rewrite (gate_open_result _ _ Hgate). simpl.
  replace (n - 1 <=? 0) with false by (symmetry; apply Z.leb_gt; lia).
  simpl.
  rewrite (gtb_true_lt (expires_at (kv_value e) - now c) 0) by lia.
  unfold kv_put.
  replace (expires_at (kv_value e) - now c <? KV_MIN_TTL) with true
    by (symmetry; apply Z.ltb_lt; lia).
  eexists. split; [reflexivity |]. simpl.
  rewrite <- app_assoc. auto.
Qed.


(** ** POST /api/v1/upload/finalize, continued *)

(** X29. With a pending record whose blob is in the bucket and at least the
    store's minimum TTL left before [expires_at], finalize succeeds: it
    reads the pending record, probes the blob, writes the active record
    (size taken from the probe, TTL the time left) and only then deletes the
    pending record.  A second finalize of the same id fails with NOT_FOUND
    (status 404). *)
Theorem finalize_succeeds_once c c' uuid w e o :
  uuid <> EmptyString ->
  FILE_KV w !! pendingKeyOf uuid = Some e ->
  R2_BUCKET w !! r2_key (kv_value e) = Some o ->
  now c + KV_MIN_TTL <= expires_at (kv_value e) ->
  let m := with_size (kv_value e) (r2_size o) in
  let ttl := expires_at (kv_value e) - now c in
  exists w1,
    upload_finalize c (Some {| file_uuid := uuid |}) w =
      (FinalizeOk {| download_link := BASE_URL (env c) ++ "/d/" ++ uuid;
                     status := active |}, w1)
    /\ awaited w1 = (awaited w ++ [KV_get (pendingKeyOf uuid);
                                   R2_head (r2_key (kv_value e));
                                   KV_put (activeKeyOf uuid) m ttl;
                                   KV_delete (pendingKeyOf uuid)])%list
    /\ FILE_KV w1 !! activeKeyOf uuid = Some {| kv_value := m; expirationTtl := ttl |}
    /\ FILE_KV_expiration w1 !! activeKeyOf uuid = Some (expires_at (kv_value e))
    /\ FILE_KV w1 !! pendingKeyOf uuid = None
    /\ exists w2,
         upload_finalize c' (Some {| file_uuid := uuid |}) w1 = (JsonError NOT_FOUND 404, w2)
         /\ FILE_KV w2 = FILE_KV w1
         /\ R2_BUCKET w2 = R2_BUCKET w1.
Proof.
  intros Hu Hkv Hr2 Hexp m ttl. unfold KV_MIN_TTL in Hexp.
  unfold upload_finalize, onError. simpl.
  apply truthy_string_nonempty in Hu. rewrite Hu. simpl.
  unfold bind, kv_get, r2_head, kv_put, kv_delete, ret, KV_MIN_TTL.
  rewrite Hkv. simpl. rewrite Hr2.
  replace (expires_at (kv_value e) - now c <=? 0) with false
    by (symmetry; apply Z.leb_gt; lia).
  replace (expires_at (kv_value e) - now c <? 60) with false
    by (symmetry; apply Z.ltb_ge; lia).
  eexists. split; [reflexivity |]. simpl.
  split; [repeat rewrite <- app_assoc; reflexivity |].
  split.
  { rewrite lookup_delete_ne by apply pending_active_distinct.
    apply lookup_insert_eq. }
  split.
  { rewrite lookup_delete_ne by apply pending_active_distinct.
    rewrite lookup_insert_eq. f_equal. lia. }
  split; [apply lookup_delete_eq |].
  rewrite lookup_delete_eq. simpl.
  eexists. split; [reflexivity |]. simpl. auto.
Qed.

(** With between 1 and 59 seconds left before [expires_at], finalize is
    past its own expiry test but the store rejects the put of the active
    record: the request is answered 500, nothing is written, and the
    pending record stays. *)
Theorem finalize_put_rejected c uuid w e o :
  uuid <> EmptyString ->
  FILE_KV w !! pendingKeyOf uuid = Some e ->
  R2_BUCKET w !! r2_key (kv_value e) = Some o ->
  0 < expires_at (kv_value e) - now c < KV_MIN_TTL ->
  exists w',
    upload_finalize c (Some {| file_uuid := uuid |}) w = (JsonError INTERNAL_ERROR 500, w')
    /\ awaited w' =
         (awaited w ++ [KV_get (pendingKeyOf uuid);
                        R2_head (r2_key (kv_value e));
                        KV_put (activeKeyOf uuid) (with_size (kv_value e) (r2_size o))
                          (expires_at (kv_value e) - now c)])%list
    /\ FILE_KV w' = FILE_KV w
    /\ R2_BUCKET w' = R2_BUCKET w.
Proof.
  intros Hu Hkv Hr2 [Hpos Hshort].
  unfold upload_finalize, onError. simpl.
  apply truthy_string_nonempty in Hu. rewrite Hu. simpl.
  unfold bind, kv_get, r2_head, kv_put, ret.
  rewrite Hkv. simpl. rewrite Hr2.
  replace (expires_at (kv_value e) - now c <=? 0) with false
    by (symmetry; apply Z.leb_gt; lia).
  replace (expires_at (kv_value e) - now c <? KV_MIN_TTL) with true
    by (symmetry; apply Z.ltb_lt; lia).
  eexists. split; [reflexivity |]. simpl.
  repeat rewrite <- app_assoc. auto.
Qed.

(** ** PUT /api/v1/upload/put/:uuid *)

(** Streaming a body for a pending upload whose link is still valid puts
    the blob under the record's [r2_key] and leaves the KV store alone. *)
Lemma upload_put_stores_blob c uuid expiresParam bytes w e :
  FILE_KV w !! pendingKeyOf uuid = Some e ->
  (forall t, expiresParam = Some t -> now c <= t) ->
  exists w',
    upload_put c uuid expiresParam (Some bytes) w = (PutOk uuid, w')
    /\ FILE_KV w' = FILE_KV w
    /\ (r2_body <$> R2_BUCKET w' !! r2_key (kv_value e)) = Some bytes.
Proof.
  intros Hkv Hlink. unfold upload_put, onError.
  assert (Hfresh : match expiresParam with
                   | Some expiresAt => now c >? expiresAt
                   | None => false
                   end = false).
  { destruct expiresParam as [t |]; [| reflexivity].
    rewrite Z.gtb_ltb. apply Z.ltb_ge. apply Hlink. reflexivity. }
  rewrite Hfresh. unfold bind, kv_get, r2_put, ret. rewrite Hkv. simpl.
  eexists. split; [reflexivity |]. simpl.
  split; [reflexivity |]. rewrite lookup_insert_eq. reflexivity.
Qed.

(** ** Sequences of downloads *)


Lemma with_downloads_left_twice m a b :
  with_downloads_left (with_downloads_left m a) b = with_downloads_left m b.
Proof. reflexivity. Qed.




(** * Further properties of the routes *)

(** ** POST /api/v1/upload/init, continued *)

(** X1. A rejected init writes nothing, and the ceiling is exclusive.
    Whatever error [upload_init] answers, it has made no store call: the
    world comes back as it was.  For a request with a filename and a
    non-zero declared size the answer is FILE_TOO_LARGE (status 413)
    exactly when the size is above MAX_FILE_SIZE; a size equal to the
    ceiling is accepted. *)
Theorem upload_init_rejections_write_nothing c u body w :
  (is_error (fst (upload_init c u body w)) = true -> snd (upload_init c u body w) = w)
  /\ (forall b, body = Some b ->
        init_filename b <> EmptyString ->
        init_size b <> 0 ->
        (fst (upload_init c u body w) = JsonError FILE_TOO_LARGE 413
         <-> MAX_FILE_SIZE (env c) < init_size b)
        /\ (is_error (fst (upload_init c u body w)) = false
            <-> init_size b <= MAX_FILE_SIZE (env c))).
Proof.
  split.
  - unfold upload_init, bind, kv_put, ret, onError.
    repeat case_match; simplify_eq; simpl; intros Herr;
      try discriminate Herr; reflexivity.
  - intros b -> Hf Hs. unfold upload_init, onError.
    apply truthy_string_nonempty in Hf. rewrite Hf.
    rewrite (truthy_number_nonzero _ Hs). simpl.
    destruct (Z.ltb_spec (MAX_FILE_SIZE (env c)) (init_size b)) as [Hgt | Hle].
    + rewrite (gtb_true_lt _ _ Hgt). simpl.
      split; split; try reflexivity; try discriminate; intros; lia.
    + rewrite (gtb_false_le _ _ Hle). unfold bind, kv_put, ret. simpl.
      split; split; try reflexivity; try discriminate; intros; lia.
Qed.

Lemma positive_or_spec {A} (n : option Z) (f : Z -> A) (d : A) :
  positive_or n f d =
    match n with
    | Some v => if 0 <? v then f v else d
    | None => d
    end.
Proof.
  unfold positive_or, truthy_number. destruct n as [v |]; [| reflexivity].
  rewrite Z.gtb_ltb. destruct (Z.eqb_spec v 0) as [-> | Hne]; simpl; reflexivity.
Qed.

(** X2. A request with a filename and a non-zero declared size that is not
    above the ceiling is accepted.  The answer carries
    [expires_at = now + ttl], where [ttl] is [expires_in] when that is
    positive and DEFAULT_FILE_TTL otherwise; the only store call is one KV
    put of the pending key with the fixed TTL of 900 seconds; the record
    written carries the same [expires_at], [uploaded_at = now], the blob key
    [uploads/<uuid>/<filename>] and an absent or positive counter; the
    bucket is not touched. *)
Theorem upload_init_accepted c u body w :
  init_filename body <> EmptyString ->
  init_size body <> 0 ->
  init_size body <= MAX_FILE_SIZE (env c) ->
  exists r w1 m,
    upload_init c u (Some body) w = (InitOk r, w1)
    /\ init_file_uuid r = u
    /\ init_expires_at r = now c + resolved_ttl c body
    /\ FILE_KV w1 = <[pendingKeyOf u := {| kv_value := m; expirationTtl := 900 |}]> (FILE_KV w)
    /\ R2_BUCKET w1 = R2_BUCKET w
    /\ awaited w1 = (awaited w ++ [KV_put (pendingKeyOf u) m 900])%list
    /\ expires_at m = init_expires_at r
    /\ uploaded_at m = now c
    /\ filename m = init_filename body
    /\ r2_key m = "uploads/" ++ u ++ "/" ++ init_filename body
    /\ counter_ok (downloads_left m) = true.
Proof.
  intros Hf Hs Hmax. unfold upload_init, onError.
  apply truthy_string_nonempty in Hf. rewrite Hf.
  rewrite (truthy_number_nonzero _ Hs). simpl.
  rewrite (gtb_false_le _ _ Hmax).
  unfold bind, kv_put, ret. do 3 eexists. split; [reflexivity |]. simpl.
  rewrite !positive_or_spec. unfold resolved_ttl.
  repeat split.
  destruct (init_max_downloads body) as [v |]; [| reflexivity].
  destruct (0 <? v) eqn:Hv; simpl; [exact Hv | reflexivity].
Qed.

(** X3. Nothing is served before finalize: when the id has no active
    record, then after [upload_init] and [upload_put] for that id, whatever
    they answered, the info route and the download route answer NOT_FOUND. *)
Theorem nothing_served_before_finalize_general c0 c1 c2 c3 u body expiresParam bytes
    query header w :
  FILE_KV w !! activeKeyOf u = None ->
  let w1 := snd (upload_init c0 u body w) in
  let w2 := snd (upload_put c1 u expiresParam bytes w1) in
  fst (file_info c2 u w2) = JsonError NOT_FOUND 404
  /\ fst (file_download c3 u query header w2) = JsonError NOT_FOUND 404.
Proof.
  intros Hkv w1 w2.
  assert (Hkv2 : FILE_KV w2 !! activeKeyOf u = None).
  { subst w2 w1. unfold upload_put, upload_init, bind, kv_get, kv_put, r2_put, ret, onError.
    repeat case_match; simplify_eq; simpl;
      rewrite ?lookup_insert_ne by apply pending_active_distinct; exact Hkv. }
  unfold file_info, file_download, bind, kv_get, ret, onError. rewrite Hkv2. split; reflexivity.
Qed.


(** ** PUT /api/v1/upload/put/:uuid, continued *)

(** X4. The upload link is checked first: past its [expires] second the
    request is answered UPLOAD_EXPIRED (status 410) without any store call.
    And whatever error the route answers, neither store has changed. *)
Theorem upload_put_refusals_change_nothing c uuid expiresParam body w :
  (forall t, expiresParam = Some t -> t < now c ->
     upload_put c uuid expiresParam body w = (JsonError UPLOAD_EXPIRED 410, w))
  /\ (is_error (fst (upload_put c uuid expiresParam body w)) = true ->
        FILE_KV (snd (upload_put c uuid expiresParam body w)) = FILE_KV w
        /\ R2_BUCKET (snd (upload_put c uuid expiresParam body w)) = R2_BUCKET w).
Proof.
  split.
  - intros t -> Ht. unfold upload_put, onError. rewrite (gtb_true_lt _ _ Ht). reflexivity.
  - unfold upload_put, bind, kv_get, r2_put, ret, onError.
    repeat case_match; simplify_eq; simpl; intros Herr; try discriminate Herr;
      split; reflexivity.
Qed.

(** X5. The bucket keeps the last body put: after two accepted puts for
    the same pending upload the blob under the record's key is the second
    body, typed with the record's [mime], and the KV store is as before. *)
Theorem upload_put_last_write_wins c1 c2 uuid p1 p2 bytes1 bytes2 w e :
  FILE_KV w !! pendingKeyOf uuid = Some e ->
  (forall t, p1 = Some t -> now c1 <= t) ->
  (forall t, p2 = Some t -> now c2 <= t) ->
  exists w1 w2 o,
    upload_put c1 uuid p1 (Some bytes1) w = (PutOk uuid, w1)
    /\ upload_put c2 uuid p2 (Some bytes2) w1 = (PutOk uuid, w2)
    /\ R2_BUCKET w2 !! r2_key (kv_value e) = Some o
    /\ r2_body o = bytes2
    /\ httpMetadata_contentType o = mime (kv_value e)
    /\ FILE_KV w2 = FILE_KV w.
Proof.
  intros Hkv Hl1 Hl2. unfold upload_put, onError.
  assert (H1 : match p1 with Some t => now c1 >? t | None => false end = false).
  { destruct p1 as [t |]; [| reflexivity]. apply gtb_false_le, Hl1. reflexivity. }
  assert (H2 : match p2 with Some t => now c2 >? t | None => false end = false).
  { destruct p2 as [t |]; [| reflexivity]. apply gtb_false_le, Hl2. reflexivity. }
  rewrite H1, H2. unfold bind, kv_get, r2_put, ret. rewrite Hkv. simpl.
  do 3 eexists. split; [reflexivity |]. simpl. rewrite Hkv. simpl.
  split; [reflexivity |]. simpl. rewrite lookup_insert_eq.
  repeat split.
Qed.

(** ** POST /api/v1/upload/finalize, errors *)

(** X6. Finalize never writes to the bucket, and when it answers an error
    the KV store is unchanged as well: a failed finalize leaves the pending
    record where it was. *)
Theorem upload_finalize_errors_change_nothing c body w :
  R2_BUCKET (snd (upload_finalize c body w)) = R2_BUCKET w
  /\ (is_error (fst (upload_finalize c body w)) = true ->
        FILE_KV (snd (upload_finalize c body w)) = FILE_KV w).
Proof.
  unfold upload_finalize, bind, kv_get, r2_head, kv_put, kv_delete, ret, onError.
  repeat case_match; simplify_eq; simpl; split; try reflexivity;
    intros Herr; try discriminate Herr; reflexivity.
Qed.

(** X7. A pending upload whose lifetime has run out cannot be activated:
    from the second [expires_at] on, finalize answers EXPIRED (status 410)
    even though the blob is in the bucket, and writes no active record. *)
Theorem upload_finalize_too_late c uuid w e o :
  uuid <> EmptyString ->
  FILE_KV w !! pendingKeyOf uuid = Some e ->
  R2_BUCKET w !! r2_key (kv_value e) = Some o ->
  expires_at (kv_value e) <= now c ->
  exists w',
    upload_finalize c (Some {| file_uuid := uuid |}) w = (JsonError EXPIRED 410, w')
    /\ FILE_KV w' = FILE_KV w
    /\ R2_BUCKET w' = R2_BUCKET w.
Proof.
  intros Hu Hkv Hr2 Hlate. unfold upload_finalize, onError. simpl.
  apply truthy_string_nonempty in Hu. rewrite Hu. simpl.
  unfold bind, kv_get, r2_head, ret. rewrite Hkv. simpl. rewrite Hr2.
  replace (expires_at (kv_value e) - now c <=? 0) with true
    by (symmetry; apply Z.leb_le; lia).
  eexists. split; [reflexivity |]. simpl. split; reflexivity.
Qed.

(** X8. Once finalized, the blob cannot be replaced through the upload
    link: after a successful finalize a put for the same id is refused
    (NOT_FOUND when the link is still valid) and the bucket is unchanged. *)
Theorem upload_put_after_finalize_refused c c' uuid expiresParam bytes w r w1 :
  upload_finalize c (Some {| file_uuid := uuid |}) w = (FinalizeOk r, w1) ->
  is_error (fst (upload_put c' uuid expiresParam bytes w1)) = true
  /\ ((forall t, expiresParam = Some t -> now c' <= t) ->
        fst (upload_put c' uuid expiresParam bytes w1) = JsonError NOT_FOUND 404)
  /\ R2_BUCKET (snd (upload_put c' uuid expiresParam bytes w1)) = R2_BUCKET w1.
Proof.
  intros Hfin.
  assert (Hgone : FILE_KV w1 !! pendingKeyOf uuid = None).
  { revert Hfin. unfold upload_finalize, bind, kv_get, r2_head, kv_put, kv_delete, ret, onError.
    repeat case_match; simplify_eq; intros Heq; simplify_eq; simpl.
    apply lookup_delete_eq. }
  unfold upload_put, bind, kv_get, ret, onError.
  split; [| split].
  - destruct expiresParam as [t |]; [destruct (now c' >? t) |];
      simpl; rewrite ?Hgone; reflexivity.
  - intros Hlink. destruct expiresParam as [t |];
      [rewrite (gtb_false_le _ _ (Hlink t eq_refl)) |];
      simpl; rewrite Hgone; reflexivity.
  - destruct expiresParam as [t |]; [destruct (now c' >? t) |];
      simpl; rewrite ?Hgone; reflexivity.
Qed.

(** ** GET /api/v1/file/:uuid/info, continued *)

(** X9. The info route only reads: whatever it answers, neither store
    changes and nothing is deferred; and it answers NOT_FOUND (status 404)
    exactly when the active key holds no record. *)
Theorem file_info_read_only c uuid w :
  FILE_KV (snd (file_info c uuid w)) = FILE_KV w
  /\ R2_BUCKET (snd (file_info c uuid w)) = R2_BUCKET w
  /\ waitUntil (snd (file_info c uuid w)) = waitUntil w
  /\ (fst (file_info c uuid w) = JsonError NOT_FOUND 404
      <-> FILE_KV w !! activeKeyOf uuid = None).
Proof.
  unfold file_info, bind, kv_get, ret, onError.
  destruct (FILE_KV w !! activeKeyOf uuid) as [e |]; simpl;
    repeat split; try reflexivity; discriminate.
Qed.


(** ** GET /api/v1/file/:uuid/download, the password gate *)

(** X10. A refused password costs nothing.  For a protected record that is
    neither expired nor at its limit: without a password (none, or empty,
    in both query and header) the answer is PASSWORD_REQUIRED (status 401);
    with a password whose hash differs from the stored one it is
    INVALID_PASSWORD (status 403); in both cases the only store call is the
    read, so the counter is not decremented and nothing is deleted. *)
Theorem download_refused_password_costs_nothing c uuid query header w e stored :
  FILE_KV w !! activeKeyOf uuid = Some e ->
  now c <= expires_at (kv_value e) ->
  at_limit (downloads_left (kv_value e)) = false ->
  password_hash (kv_value e) = Some stored ->
  let password := or_string query (or_string header EmptyString) in
  (password = EmptyString ->
     file_download c uuid query header w =
       (JsonError PASSWORD_REQUIRED 401, call (KV_get (activeKeyOf uuid)) w))
  /\ (password <> EmptyString -> hashPassword password <> stored ->
        file_download c uuid query header w =
          (JsonError INVALID_PASSWORD 403, call (KV_get (activeKeyOf uuid)) w)).
Proof.
  intros Hkv Hexp Hlim Hpw password.
  unfold file_download, bind, kv_get, ret, onError. rewrite Hkv. simpl.
  rewrite (gtb_false_le _ _ Hexp), Hlim, Hpw. fold password.
  split.
  - intros ->. reflexivity.
  - intros Hne Hhash. apply truthy_string_nonempty in Hne. rewrite Hne. simpl.
    destruct (verifyPassword password stored) eqn:Hv; [| reflexivity].
    apply verifyPassword_spec in Hv. contradiction.
Qed.

(** X11. The password is read from the query first: a non-empty [password]
    query parameter makes the X-File-Password header irrelevant, and an
    absent or empty one makes the header stand in for it. *)
Theorem download_password_source c uuid w :
  (forall q header, q <> EmptyString ->
     file_download c uuid (Some q) header w = file_download c uuid (Some q) None w)
  /\ (forall header,
        file_download c uuid None header w = file_download c uuid header None w
        /\ file_download c uuid (Some EmptyString) header w
             = file_download c uuid header None w).
Proof.
  split.
  - intros q header Hq. apply truthy_string_nonempty in Hq.
    unfold file_download, or_string, onError. rewrite Hq. reflexivity.
  - intros header. unfold file_download, or_string, onError. simpl.
    destruct header as [h |]; [destruct (truthy_string h) eqn:Hh |]; simpl;
      split; reflexivity.
Qed.


(** ** GET /api/v1/file/:uuid/download, outcomes *)



(** X13. A record whose blob has gone missing is cleaned up on access: a
    download that passes the expiry check, the limit check and the password
    gate, whose put back of the decremented record, if it makes one, the
    store takes, but which finds no blob, is answered FILE_MISSING (status
    404) and the record is deleted from the KV store; the bucket is not
    touched. *)
Theorem download_missing_blob_cleans_up c uuid query header w e :
  FILE_KV w !! activeKeyOf uuid = Some e ->
  now c <= expires_at (kv_value e) ->
  at_limit (downloads_left (kv_value e)) = false ->
  (forall n, downloads_left (kv_value e) = Some n -> 1 < n ->
     now c = expires_at (kv_value e) \/ now c + KV_MIN_TTL <= expires_at (kv_value e)) ->
  opens_gate (kv_value e) (or_string query (or_string header EmptyString)) ->
  R2_BUCKET w !! r2_key (kv_value e) = None ->
  exists w',
    file_download c uuid query header w = (JsonError FILE_MISSING 404, w')
    /\ FILE_KV w' = delete (activeKeyOf uuid) (FILE_KV w)
    /\ R2_BUCKET w' = R2_BUCKET w
    /\ waitUntil w' = waitUntil w.
Proof.
  intros Hkv Hexp Hlim Hput Hgate Hr2.
  unfold file_download, bind, kv_get, ret, onError. rewrite Hkv. simpl.
  rewrite (gtb_false_le _ _ Hexp), Hlim.
  rewrite (gate_open_result _ _ Hgate). simpl.
  destruct (downloads_left (kv_value e)) as [n |] eqn:Hleft; simpl.
  - destruct (n - 1 <=? 0) eqn:Hlast; simpl.
    + unfold r2_get, kv_delete, ret. simpl. rewrite Hr2.
      eexists. split; [reflexivity |]. simpl. auto.
    + apply Z.leb_gt in Hlast.
      destruct (Hput n eq_refl ltac:(lia)) as [Hnow | Hlong].
      * rewrite (gtb_false_le (expires_at (kv_value e) - now c) 0) by lia.
        unfold r2_get, kv_delete, ret. simpl. rewrite Hr2.
        eexists. split; [reflexivity |]. simpl. auto.
      * unfold KV_MIN_TTL in Hlong.
        rewrite (gtb_true_lt (expires_at (kv_value e) - now c) 0) by lia.
        unfold kv_put, KV_MIN_TTL.
        replace (expires_at (kv_value e) - now c <? 60) with false
          by (symmetry; apply Z.ltb_ge; lia).
        unfold r2_get, kv_delete, ret. simpl. rewrite Hr2.
        eexists. split; [reflexivity |]. simpl.
        rewrite delete_insert_eq. auto.
  - unfold r2_get, kv_delete, ret. simpl. rewrite Hr2.
    eexists. split; [reflexivity |]. simpl. auto.
Qed.

Lemma download_ends_file_deletes c uuid query header w :
  ends_file (fst (file_download c uuid query header w)) = true ->
  FILE_KV (snd (file_download c uuid query header w)) !! activeKeyOf uuid = None.
Proof.
  unfold_routes.
  repeat case_match; simpl in *; simplify_eq; simpl;
    intros Hend; try discriminate Hend; apply lookup_delete_eq.
Qed.

(** X14. Cleanups converge.  Whenever the download route answers EXPIRED,
    LIMIT_REACHED or FILE_MISSING, or streams the last permitted download,
    the active record is gone when the handler returns, and every later
    download of that id, at any time and with any password, before or after
    the deferred deletions settle, is answered NOT_FOUND. *)
Theorem download_cleanup_converges c uuid query header w :
  ends_file (fst (file_download c uuid query header w)) = true ->
  let w' := snd (file_download c uuid query header w) in
  FILE_KV w' !! activeKeyOf uuid = None
  /\ (forall c' query' header',
        fst (file_download c' uuid query' header' w') = JsonError NOT_FOUND 404
        /\ fst (file_download c' uuid query' header' (settle w')) = JsonError NOT_FOUND 404).
Proof.
  intros Hend w'. pose proof (download_ends_file_deletes _ _ _ _ _ Hend) as Hgone.
  fold w' in Hgone. split; [exact Hgone |].
  intros c' query' header'.
  unfold file_download, bind, kv_get, ret, onError. simpl. rewrite Hgone. split; reflexivity.
Qed.

(** X15. The expiry cleanup strands the blob.  When a download finds the
    record past [expires_at], the record is deleted but the blob stays in
    the bucket, no deletion is deferred, and the delete route can no longer
    remove it: it answers NOT_FOUND and leaves the blob where it is. *)
Theorem expired_download_strands_blob c c' uuid query header w e o :
  FILE_KV w !! activeKeyOf uuid = Some e ->
  R2_BUCKET w !! r2_key (kv_value e) = Some o ->
  expires_at (kv_value e) < now c ->
  let w1 := snd (file_download c uuid query header w) in
  let w2 := snd (file_delete c' uuid (settle w1)) in
  fst (file_download c uuid query header w) = JsonError EXPIRED 410
  /\ waitUntil w1 = waitUntil w
  /\ R2_BUCKET w1 !! r2_key (kv_value e) = Some o
  /\ fst (file_delete c' uuid w1) = JsonError NOT_FOUND 404
  /\ (waitUntil w = [] ->
        fst (file_delete c' uuid (settle w1)) = JsonError NOT_FOUND 404
        /\ R2_BUCKET w2 !! r2_key (kv_value e) = Some o).
Proof.
  intros Hkv Hr2 Hexp.
  unfold file_download, file_delete, bind, kv_get, kv_delete, ret, onError. rewrite Hkv. simpl.
  rewrite (gtb_true_lt _ _ Hexp). simpl.
  rewrite lookup_delete_eq. simpl.
  split; [reflexivity |]. split; [reflexivity |]. split; [exact Hr2 |].
  split; [reflexivity |].
  intros Hwait. rewrite Hwait. simpl. split; [reflexivity | exact Hr2].
Qed.


(** ** The routing table as a whole *)

Lemma pendingKeyOf_inj u v : pendingKeyOf u = pendingKeyOf v -> u = v.
Proof. unfold pendingKeyOf. simpl. intros Heq. injection Heq as Heq. exact Heq. Qed.

Lemma activeKeyOf_inj u v : activeKeyOf u = activeKeyOf v -> u = v.
Proof. unfold activeKeyOf. simpl. intros Heq. injection Heq as Heq. exact Heq. Qed.

Lemma app_frames_other_keys c r w k :
  k <> pendingKeyOf (request_uuid r) ->
  k <> activeKeyOf (request_uuid r) ->
  FILE_KV (snd (app c r w)) !! k = FILE_KV w !! k.
Proof.
  intros Hp Ha. destruct r as [u body | u p body | [body |] | u | u q h | u];
    simpl in Hp, Ha; unfold_routes;
    repeat case_match; simplify_eq; simpl;
    rewrite ?lookup_delete_ne, ?lookup_insert_ne by congruence;
    rewrite ?lookup_delete_ne, ?lookup_insert_ne by congruence;
    reflexivity.
Qed.

(** X16. Requests about one id never touch another id's records: whatever
    request the worker serves, the pending and the active record of every
    other uuid are in the KV store exactly as before. *)
Theorem app_leaves_other_uuids_alone c r w u' :
  u' <> request_uuid r ->
  FILE_KV (snd (app c r w)) !! pendingKeyOf u' = FILE_KV w !! pendingKeyOf u'
  /\ FILE_KV (snd (app c r w)) !! activeKeyOf u' = FILE_KV w !! activeKeyOf u'.
Proof.
  intros Hne. split; apply app_frames_other_keys.
  - intros Heq. apply pendingKeyOf_inj in Heq. contradiction.
  - apply pending_active_distinct.
  - intros Heq. symmetry in Heq. revert Heq. apply pending_active_distinct.
  - intros Heq. apply activeKeyOf_inj in Heq. contradiction.
Qed.

(** X17. Only the put route writes blobs: after any other request, and
    after the deferred deletions settle, every blob in the bucket was
    already there, with the same content. *)
Theorem only_put_writes_blobs c r w k o :
  (forall uuid p body, r <> PUT_upload_put uuid p body) ->
  (R2_BUCKET (snd (app c r w)) !! k = Some o -> R2_BUCKET w !! k = Some o)
  /\ (R2_BUCKET (settle w) !! k = Some o -> R2_BUCKET w !! k = Some o).
Proof.
  intros Hput. split.
  - destruct r as [u body | u p body | body | u | u q h | u];
      [| exfalso; eapply Hput; reflexivity | | | |];
      unfold_routes; repeat case_match; simplify_eq; simpl;
      try (intros Hk; exact Hk);
      intros Hk; apply lookup_delete_Some in Hk; apply Hk.
  - unfold settle. simpl. generalize (R2_BUCKET w). induction (waitUntil w) as [| key keys IH];
      intros b; simpl; [intros Hk; exact Hk |].
    intros Hk. apply IH in Hk. apply lookup_delete_Some in Hk. apply Hk.
Qed.

Lemma app_preserves_counters c r w :
  counters_positive w -> counters_positive (snd (app c r w)).
Proof.
  unfold counters_positive. intros Hinv.
  destruct r as [u body | u p body | body | u | u q h | u];
    unfold_routes; repeat case_match; simplify_eq; simpl;
    repeat first [ exact Hinv
                 | apply map_Forall_delete
                 | apply map_Forall_insert_2 ];
    simpl; rewrite ?positive_or_spec;
    first
      [ (* the counter upload_init resolves *)
        destruct (init_max_downloads _) as [v |];
          [destruct (0 <? v) eqn:Hv; simpl; [exact Hv | reflexivity] | reflexivity]
      | (* the counter finalize copies from the pending record *)
        match goal with
        | Hl : kv_value <$> FILE_KV w !! _ = Some ?f |- counter_ok (downloads_left ?f) = true =>
            apply fmap_Some in Hl as (e & Hl & ->);
            exact (map_Forall_lookup_1 _ _ _ _ Hinv Hl)
        end
      | (* the counter a download that is not the last puts back *)
        match goal with
        | Hl : at_limit (downloads_left (with_downloads_left _ (Some (?z - 1)))) = false
          |- (0 <? ?z - 1) = true =>
            simpl in Hl; apply Z.leb_gt in Hl; apply Z.ltb_lt; exact Hl
        | Hl : negb (at_limit (downloads_left (with_downloads_left _ (Some (?z - 1)))))
               && _ = true
          |- (0 <? ?z - 1) = true =>
            apply andb_true_iff in Hl as [Hl _]; apply negb_true_iff in Hl;
            simpl in Hl; apply Z.leb_gt in Hl; apply Z.ltb_lt; exact Hl
        end ].
Qed.

Lemma reclaim_preserves_counters t keys w :
  counters_positive w -> counters_positive (reclaim t keys w).
Proof.
  unfold counters_positive. intros Hinv k e Hk.
  apply reclaim_subset in Hk. exact (map_Forall_lookup_1 _ _ _ _ Hinv Hk).
Qed.

Lemma counters_positive_no_limit c uuid query header w st :
  counters_positive w ->
  fst (file_download c uuid query header w) <> JsonError LIMIT_REACHED st.
Proof.
  unfold counters_positive. intros Hinv.
  unfold_routes. destruct (FILE_KV w !! activeKeyOf uuid) as [e |] eqn:Hkv; simpl;
    [| discriminate].
  pose proof (map_Forall_lookup_1 _ _ _ _ Hinv Hkv) as He. simpl in He.
  destruct (now c >? expires_at (kv_value e)); simpl; [discriminate |].
  destruct (downloads_left (kv_value e)) as [n |] eqn:Hleft; simpl in *.
  - apply Z.ltb_lt in He. replace (n <=? 0) with false by (symmetry; apply Z.leb_gt; lia).
    repeat case_match; simplify_eq; simpl; discriminate.
  - repeat case_match; simplify_eq; simpl; discriminate.
Qed.

(** X18. The limit branch is unreachable from the worker's own writes.  If
    every record in the KV store has an absent or positive counter, as is
    the case in the empty store, then after any sequence of requests and
    settlements this is still so, and no response in the sequence is
    LIMIT_REACHED. *)
Theorem limit_reached_is_never_answered steps :
  forall w,
    counters_positive w ->
    counters_positive (snd (run steps w))
    /\ Forall (fun resp => forall st, resp <> JsonError LIMIT_REACHED st)
              (fst (run steps w)).
Proof.
  induction steps as [| [c r | | t keys] steps IH]; intros w Hinv; simpl.
  - split; [exact Hinv | constructor].
  - pose proof (app_preserves_counters c r w Hinv) as Hinv1.
    destruct (app c r w) as [resp w1] eqn:Happ. simpl in Hinv1.
    destruct (IH w1 Hinv1) as [Hinv2 Hall].
    destruct (run steps w1) as [resps w2]. simpl in *.
    split; [exact Hinv2 |]. constructor; [| exact Hall].
    intros st Heq. subst resp.
    destruct r as [u body | u p body | body | u | u q h | u].
    6: { revert Happ. unfold_routes. repeat case_match; simplify_eq; discriminate. }
    5: { pose proof (counters_positive_no_limit c u q h w st Hinv) as Hno.
         simpl in Happ. rewrite Happ in Hno. apply Hno. reflexivity. }
    all: revert Happ; unfold_routes; repeat case_match; simplify_eq; discriminate.
  - apply IH. exact Hinv.
  - apply IH. apply reclaim_preserves_counters. exact Hinv.
Qed.


(** X19. Every KV put the worker issues carries a positive TTL: whatever
    request is served in whatever world, the store calls it awaits extend
    the trace, and each put among them has [expirationTtl > 0] (900 for a
    pending record, the time left for an active one). *)
Theorem kv_puts_carry_positive_ttl c r w :
  exists calls,
    awaited (snd (app c r w)) = (awaited w ++ calls)%list
    /\ forallb put_ttl_positive calls = true.
Proof.
  destruct r as [u body | u p body | body | u | u q h | u];
    unfold_routes; repeat case_match; simplify_eq; simpl in *;
    first
      [ solve [ exists []; split; [symmetry; apply app_nil_r | reflexivity] ]
      | eexists; split; [rewrite <- ?app_assoc; reflexivity |]; simpl;
        repeat match goal with
               | Hl : (_ >? 0) = true |- _ => rewrite Z.gtb_ltb in Hl; rewrite Hl
               | Hl : (?t <=? 0) = false |- _ =>
                   apply Z.leb_gt in Hl; apply Z.ltb_lt in Hl; rewrite Hl
               end; reflexivity ].
Qed.

(** ** From upload to download *)







(** ** crypto.ts, the hexadecimal rendering *)

Lemma hex_digit_code (n : N) :
  (n < 16)%N ->
  N_of_ascii (hex_digit n) = if (n <? 10)%N then (48 + n)%N else (87 + n)%N.
Proof.
  intros Hn. unfold hex_digit.
  destruct (n <? 10)%N; apply N_ascii_embedding; lia.
Qed.

Lemma hex_digit_inj (a b : N) :
  (a < 16)%N -> (b < 16)%N -> hex_digit a = hex_digit b -> a = b.
Proof.
  intros Ha Hb Heq. apply (f_equal N_of_ascii) in Heq.
  rewrite !hex_digit_code in Heq by assumption.
  destruct (N.ltb_spec a 10), (N.ltb_spec b 10); lia.
Qed.

Lemma hex_digit_lower (n : N) : (n < 16)%N -> is_lower_hex (hex_digit n) = true.
Proof.
  intros Hn. unfold is_lower_hex. rewrite hex_digit_code by assumption.
  destruct (N.ltb_spec n 10).
  - apply orb_true_iff. left. apply andb_true_iff. split; apply N.leb_le; lia.
  - apply orb_true_iff. right. apply andb_true_iff. split; apply N.leb_le; lia.
Qed.

Lemma byte_nibbles (b : byte) :
  (Byte.to_N b / 16 < 16)%N /\ (Byte.to_N b mod 16 < 16)%N.
Proof.
  pose proof (Byte.to_N_bounded b) as Hb. split.
  - apply N.Div0.div_lt_upper_bound. lia.
  - apply N.mod_lt. discriminate.
Qed.

Lemma hex_byte_inj (a b : byte) : hex_byte a = hex_byte b -> a = b.
Proof.
  unfold hex_byte. intros Heq. injection Heq as Hhi Hlo.
  destruct (byte_nibbles a) as [Ha1 Ha2], (byte_nibbles b) as [Hb1 Hb2].
  apply hex_digit_inj in Hhi; [| assumption ..].
  apply hex_digit_inj in Hlo; [| assumption ..].
  assert (Hn : Byte.to_N a = Byte.to_N b).
  { rewrite (N.div_mod' (Byte.to_N a) 16), (N.div_mod' (Byte.to_N b) 16). lia. }
  pose proof (Byte.of_to_N a) as Hoa. rewrite Hn, Byte.of_to_N in Hoa.
  injection Hoa as ->. reflexivity.
Qed.

Lemma hex_join_cons (b : byte) (bs : list byte) :
  hex_join (b :: bs) =
    String (hex_digit (Byte.to_N b / 16))
      (String (hex_digit (Byte.to_N b mod 16)) (hex_join bs)).
Proof. reflexivity. Qed.

Lemma hex_join_inj (xs ys : list byte) : hex_join xs = hex_join ys -> xs = ys.
Proof.
  revert ys. induction xs as [| x xs IH]; intros [| y ys]; simpl;
    try reflexivity; try discriminate.
  intros Heq. injection Heq as Hhi Hlo Hrest.
  assert (Hxy : hex_byte x = hex_byte y) by (unfold hex_byte; congruence).
  apply hex_byte_inj in Hxy. apply IH in Hrest. congruence.
Qed.

(** X21. [hashPassword] returns lower-case hexadecimal, two characters for
    each byte of the digest. *)
Theorem hashPassword_is_lower_hex (password : string) :
  string_forall is_lower_hex (hashPassword password) = true
  /\ String.length (hashPassword password) =
       (2 * length (subtle_digest_SHA256 (TextEncoder_encode password)))%nat.
Proof.
  unfold hashPassword. cbv zeta.
  induction (subtle_digest_SHA256 (TextEncoder_encode password)) as [| b bs [IH1 IH2]];
    [split; reflexivity |].
  rewrite hex_join_cons. destruct (byte_nibbles b) as [Hhi Hlo].
  cbn [string_forall String.length].
  rewrite (hex_digit_lower _ Hhi), (hex_digit_lower _ Hlo), IH1, IH2.
  split; [reflexivity |]. cbn [length]. lia.
Qed.

(** X22. The hexadecimal rendering loses nothing: a password verifies
    against the stored hash of another exactly when their digests are
    equal, so a wrong password is accepted only on a digest collision. *)
Theorem verifyPassword_iff_same_digest (password original : string) :
  verifyPassword password (hashPassword original) = true
  <-> subtle_digest_SHA256 (TextEncoder_encode password)
        = subtle_digest_SHA256 (TextEncoder_encode original).
Proof.
  rewrite verifyPassword_spec. unfold hashPassword. split.
  - apply hex_join_inj.
  - intros ->. reflexivity.
Qed.

(** ** GET /d/:uuid *)

Lemma after_question_none_before s : after_question s = None -> before_question s = s.
Proof.
  induction s as [| a s IH]; simpl; [reflexivity |].
  destruct (Ascii.eqb a "?"); [discriminate |]. intros Hs. rewrite IH by exact Hs. reflexivity.
Qed.

Lemma after_question_append p q :
  after_question p = None ->
  after_question (p ++ String "?" q) = Some q.
Proof.
  induction p as [| a p IH]; simpl; [reflexivity |].
  destruct (Ascii.eqb a "?"); [discriminate |]. exact IH.
Qed.

Lemma after_question_append_none p q :
  after_question p = None -> after_question (p ++ q) = after_question q.
Proof.
  induction p as [| a p IH]; simpl; [reflexivity |].
  destruct (Ascii.eqb a "?"); [discriminate |]. exact IH.
Qed.

Lemma before_question_append p q :
  after_question p = None ->
  before_question (p ++ String "?" q) = p.
Proof.
  induction p as [| a p IH]; simpl; [reflexivity |].
  destruct (Ascii.eqb a "?"); [discriminate |]. intros Hp. rewrite IH by exact Hp. reflexivity.
Qed.

Lemma no_question_none s : no_question s = true <-> after_question s = None.
Proof.
  unfold no_question, includes_question.
  destruct (after_question s); simpl; split; congruence.
Qed.

(** X23. The short link forwards the query string only up to a second
    question mark.  A URL without a query redirects (302) to the download
    route of the id; a query without a further question mark is appended
    unchanged; of a query that contains one, everything from that mark on
    is dropped. *)
Theorem short_link_forwards_query c uuid path q rest :
  no_question path = true ->
  no_question q = true ->
  let target := BASE_URL (env c) ++ "/api/v1/file/" ++ uuid ++ "/download" in
  short_link c uuid path = (target, 302)
  /\ short_link c uuid (path ++ "?" ++ q)
       = (BASE_URL (env c) ++ "/api/v1/file/" ++ uuid ++ "/download" ++ "?" ++ q, 302)
  /\ short_link c uuid (path ++ "?" ++ q ++ "?" ++ rest)
       = (BASE_URL (env c) ++ "/api/v1/file/" ++ uuid ++ "/download" ++ "?" ++ q, 302).
Proof.
  intros Hp Hq target. apply no_question_none in Hp, Hq.
  unfold short_link, includes_question, split_question_1. subst target.
  split; [| split].
  - rewrite Hp. reflexivity.
  - change (path ++ "?" ++ q) with (path ++ String "?" q).
    rewrite (after_question_append _ _ Hp).
    rewrite (after_question_none_before _ Hq). reflexivity.
  - change (path ++ "?" ++ q ++ "?" ++ rest) with (path ++ String "?" (q ++ String "?" rest)).
    rewrite (after_question_append _ _ Hp).
    rewrite (before_question_append _ _ Hq). reflexivity.
Qed.


(** ** The client: links and remaining time *)

Lemma HEX_digit_unreserved (n : N) :
  (n < 16)%N -> uri_unreserved (N_of_ascii (HEX_digit n)) = true.
Proof.
  intros Hn. unfold HEX_digit.
  destruct (N.ltb_spec n 10); rewrite N_ascii_embedding by lia; unfold uri_unreserved.
  - replace ((48 <=? 48 + n) && (48 + n <=? 57))%N with true
      by (symmetry; apply andb_true_iff; split; apply N.leb_le; lia).
    rewrite orb_true_r. reflexivity.
  - replace ((65 <=? 55 + n) && (55 + n <=? 90))%N with true
      by (symmetry; apply andb_true_iff; split; apply N.leb_le; lia).
    reflexivity.
Qed.

Lemma encodeURIComponent_safe (s : string) :
  string_forall is_uri_safe (encodeURIComponent s) = true.
Proof.
  induction s as [| a s IH]; simpl; [reflexivity |].
  destruct (uri_unreserved (N_of_ascii a)) eqn:Hu; simpl.
  - unfold is_uri_safe at 1. rewrite Hu. exact IH.
  - pose proof (N_ascii_bounded a) as Ha.
    assert (Hhi : (N_of_ascii a / 16 < 16)%N) by (apply N.Div0.div_lt_upper_bound; lia).
    assert (Hlo : (N_of_ascii a mod 16 < 16)%N) by (apply N.mod_lt; discriminate).
    unfold is_uri_safe.
    rewrite (HEX_digit_unreserved _ Hhi), (HEX_digit_unreserved _ Hlo). simpl. exact IH.
Qed.

Lemma uri_safe_no_question (s : string) :
  string_forall is_uri_safe s = true -> after_question s = None.
Proof.
  induction s as [| a s IH]; simpl; [reflexivity |].
  intros Hs. apply andb_true_iff in Hs as [Ha Hs].
  destruct (Ascii.eqb_spec a "?") as [-> | _]; [discriminate Ha | apply IH, Hs].
Qed.

(** X24. A password never leaks out of its query parameter.  What
    [encodeURIComponent] emits consists of unreserved characters and percent
    signs only; so the short link, given the query [getDownloadUrl] builds
    for a non-empty password, redirects to exactly the URL [getDownloadUrl]
    builds for the worker's own origin.  The password holds no apostrophe:
    that one character [encodeURIComponent] leaves as it is and the URL
    parser of the runtime rewrites, so that [c.req.url] is not the text the
    client sent. *)
Theorem short_link_agrees_with_getDownloadUrl c uuid path password :
  password <> EmptyString ->
  no_apostrophe password = true ->
  no_question path = true ->
  string_forall is_uri_safe (encodeURIComponent password) = true
  /\ short_link c uuid (path ++ "?password=" ++ encodeURIComponent password)
       = (getDownloadUrl (BASE_URL (env c)) uuid (Some password), 302).
Proof.
  intros Hpw _ Hpath. split; [apply encodeURIComponent_safe |].
  apply truthy_string_nonempty in Hpw. apply no_question_none in Hpath.
  unfold getDownloadUrl. rewrite Hpw.
  unfold short_link, includes_question, split_question_1.
  change (path ++ "?password=" ++ encodeURIComponent password)
    with (path ++ String "?" ("password=" ++ encodeURIComponent password)).
  rewrite (after_question_append _ _ Hpath).
  rewrite after_question_none_before; [reflexivity |].
  rewrite after_question_append_none by reflexivity.
  apply uri_safe_no_question, encodeURIComponent_safe.
Qed.

(** X25. The remaining time is shown with a count that fits its unit: a
    past or present expiry reads Expired; otherwise the count is at least
    1, seconds and minutes stay below 60, hours below 24, and the count is
    the number of whole units left. *)
Theorem formatTimeLeft_counts_whole_units now0 expiresAt :
  let diff := expiresAt - now0 in
  (diff <= 0 -> formatTimeLeft now0 expiresAt = "Expired")
  /\ (0 < diff ->
        exists n unit,
          formatTimeLeft now0 expiresAt = toString n ++ unit
          /\ 1 <= n
          /\ (unit = "s" /\ n = diff /\ n < 60
              \/ unit = "m" /\ 60 * n <= diff < 60 * (n + 1) /\ n < 60
              \/ unit = "h" /\ 3600 * n <= diff < 3600 * (n + 1) /\ n < 24
              \/ unit = "d" /\ 86400 * n <= diff < 86400 * (n + 1))).
Proof.
  intros diff. unfold formatTimeLeft. fold diff. split.
  - intros Hd. replace (diff <=? 0) with true by (symmetry; apply Z.leb_le; lia).
    reflexivity.
  - intros Hd. replace (diff <=? 0) with false by (symmetry; apply Z.leb_gt; lia).
    destruct (Z.ltb_spec diff 60); [| destruct (Z.ltb_spec diff 3600);
      [| destruct (Z.ltb_spec diff 86400)]].
    + exists diff, "s". split; [reflexivity |]. split; [lia |]. left. split; [reflexivity | lia].
    + exists (diff / 60), "m". split; [reflexivity |].
      pose proof (Z.div_mod diff 60 ltac:(lia)).
      pose proof (Z.mod_pos_bound diff 60 ltac:(lia)).
      split; [lia |]. right. left. split; [reflexivity | lia].
    + exists (diff / 3600), "h". split; [reflexivity |].
      pose proof (Z.div_mod diff 3600 ltac:(lia)).
      pose proof (Z.mod_pos_bound diff 3600 ltac:(lia)).
      split; [lia |]. right. right. left. split; [reflexivity | lia].
    + exists (diff / 86400), "d". split; [reflexivity |].
      pose proof (Z.div_mod diff 86400 ltac:(lia)).
      pose proof (Z.mod_pos_bound diff 86400 ltac:(lia)).
      split; [lia |]. right. right. right. split; [reflexivity | lia].
Qed.



End Properties.

(** * Concrete runs

    The handlers evaluated on explicit worlds, with the digest of the
    platform instantiated by [SHA256.digest]. *)

#[local] Existing Instance fips_crypto.

Example hashPassword_abc :
  hashPassword "abc" = "ba7816bf8f01cfea414140de5dae2223b00361a396177a9cb410ff61f20015ad".
Proof. vm_compute. reflexivity. Qed.

Example hashPassword_hunter2 :
  hashPassword "hunter2" = "f52fbd32b2b3b86ff88ef6c490628285f482af15ddcb29541f94bcf526a3f6c7".
Proof. vm_compute. reflexivity. Qed.

(** Two blocks: 56 bytes of input do not leave room for the length. *)
Example hashPassword_two_blocks :
  hashPassword "aaaaaaaaaaaaaaaaaaaaaaaaaaaaaaaaaaaaaaaaaaaaaaaaaaaaaaaa"
  = "b35439a4ac6f0948b6d6f9e3c6af0f5f590ce20f1bde7090ef7970686ec6738a".
Proof. vm_compute. reflexivity. Qed.



Lemma download_check_order_witness :
  file_download (ctx_at 1001) uuid0 None None empty_world
    = (JsonError NOT_FOUND 404, call (KV_get (activeKeyOf uuid0)) empty_world)
  /\ (exists w',
        file_download (ctx_at 1061) uuid0 None None
            (active_world (a_txt (Some 0) (Some (hashPassword "hunter2"))))
          = (JsonError EXPIRED 410, w')
        /\ FILE_KV w' !! activeKeyOf uuid0 = None
        /\ R2_BUCKET w' !! r2_key (a_txt None None) = Some a_txt_blob)
  /\ (exists w',
        file_download (ctx_at 1060) uuid0 None None
            (active_world (a_txt (Some 0) (Some (hashPassword "hunter2"))))
          = (JsonError LIMIT_REACHED 410, w')
        /\ FILE_KV w' !! activeKeyOf uuid0 = None
        /\ R2_BUCKET w' !! r2_key (a_txt None None) = None)
  /\ (exists e,
        FILE_KV (active_world (a_txt (Some 2) (Some (hashPassword "hunter2"))))
          !! activeKeyOf uuid0 = Some e
        /\ 1001 <= expires_at (kv_value e)
        /\ at_limit (downloads_left (kv_value e)) = false).
Proof.
  split; [| split; [| split]].
  - apply (proj1 (download_check_order (ctx_at 1001) uuid0 None None empty_world)).
    vm_compute. reflexivity.
  - destruct (proj1 (proj2 (download_check_order (ctx_at 1061) uuid0 None None
                (active_world (a_txt (Some 0) (Some (hashPassword "hunter2"))))))
              (active_entry (a_txt (Some 0) (Some (hashPassword "hunter2")))))
      as (w' & Hrun & Hkv & Hr2 & _).
    + vm_compute. reflexivity.
    + simpl. lia.
    + exists w'. split; [exact Hrun |]. rewrite Hkv, Hr2.
      split; vm_compute; reflexivity.
  - destruct (proj1 (proj2 (proj2 (download_check_order (ctx_at 1060) uuid0 None None
                (active_world (a_txt (Some 0) (Some (hashPassword "hunter2")))))))
              (active_entry (a_txt (Some 0) (Some (hashPassword "hunter2")))) 0)
      as (w' & Hrun & Hkv & Hr2 & _).
    + vm_compute. reflexivity.
    + simpl. lia.
    + reflexivity.
    + lia.
    + exists w'. split; [exact Hrun |]. rewrite Hkv, Hr2.
      split; vm_compute; reflexivity.
  - apply (proj2 (proj2 (proj2 (download_check_order (ctx_at 1001) uuid0 (Some "hunter3") None
                (active_world (a_txt (Some 2) (Some (hashPassword "hunter2")))))))).
    vm_compute. reflexivity.
Defined.

(** Counterexample to C3 as the specification words it: a declared size of
    -1 is not rejected; the request
    is accepted and the pending record is written. *)
Lemma upload_init_negative_size_accepted :
  init_filename (init_a_txt (-1) None None) <> EmptyString
  /\ init_size (init_a_txt (-1) None None) <= 0
  /\ fst (upload_init (ctx_at 1000) uuid0 (Some (init_a_txt (-1) None None)) empty_world)
       = InitOk {| upload_url :=
                     "http://localhost:8787/api/v1/upload/put/3f2c8a1e-0000-4000-8000-000000000001?expires=1600";
                   init_file_uuid := uuid0;
                   init_expires_at := 1060 |}
  /\ FILE_KV (snd (upload_init (ctx_at 1000) uuid0 (Some (init_a_txt (-1) None None))
                     empty_world)) !! pendingKeyOf uuid0
       = Some {| kv_value :=
                   {| filename := "a.txt"; size := -1; mime := "text/plain";
                      uploaded_at := 1000; expires_at := 1060;
                      downloads_left := None; password_hash := None;
                      r2_key := "uploads/3f2c8a1e-0000-4000-8000-000000000001/a.txt" |};
                 expirationTtl := 900 |}.
Proof.
  split; [discriminate |].
  split; [simpl; lia |].
  split; vm_compute; reflexivity.
Qed.

Lemma upload_init_rejects_missing_fields_witness :
  upload_init (ctx_at 1000) uuid0 (Some (init_a_txt 0 (Some 1) None)) empty_world
    = (JsonError INVALID_REQUEST 400, empty_world).
Proof.
  apply (upload_init_rejects_missing_fields (ctx_at 1000) uuid0
           (init_a_txt 0 (Some 1) None) empty_world).
  right. reflexivity.
Defined.

(** Counterexample to C4 as the specification words it: the second delete
    of the same id is answered with
    the error NOT_FOUND. *)
Lemma second_file_delete_is_an_error :
  fst (file_delete (ctx_at 1001) uuid0 (active_world (a_txt None None))) = DeleteOk
  /\ fst (file_delete (ctx_at 1002) uuid0
            (snd (file_delete (ctx_at 1001) uuid0 (active_world (a_txt None None)))))
       = JsonError NOT_FOUND 404.
Proof. split; vm_compute; reflexivity. Qed.

Lemma file_delete_twice_witness :
  exists w1,
    file_delete (ctx_at 1001) uuid0 (active_world (a_txt None None)) = (DeleteOk, w1)
    /\ FILE_KV w1 !! activeKeyOf uuid0 = None
    /\ R2_BUCKET w1 !! r2_key (a_txt None None) = None
    /\ fst (file_delete (ctx_at 1002) uuid0 w1) = JsonError NOT_FOUND 404.
Proof.
  destruct (file_delete_twice (ctx_at 1001) (ctx_at 1002) uuid0
              (active_world (a_txt None None)) (active_entry (a_txt None None)))
    as (w1 & Hrun & Hkv & Hr2 & _ & w2 & Hagain & _).
  - vm_compute. reflexivity.
  - exists w1. split; [exact Hrun |]. rewrite Hkv, Hr2, Hagain.
    repeat split; vm_compute; reflexivity.
Defined.

(** C5, the code at the failing input.  On the second [expires_at] itself
    the record is not expired for the download route; a record with two
    downloads left is served there, as a download that is not the last, and
    the record the KV store holds afterwards still has [downloads_left = 2]:
    the successful download was not counted. *)
Theorem served_on_expiry_second_but_not_counted :
  fst (file_download (ctx_at 1060) uuid0 None None (active_world (a_txt (Some 2) None)))
    = FileStream (download_headers (a_txt (Some 2) None)) ten_bytes false
  /\ FILE_KV (snd (file_download (ctx_at 1060) uuid0 None None
                     (active_world (a_txt (Some 2) None)))) !! activeKeyOf uuid0
       = Some (active_entry (a_txt (Some 2) None))
  /\ awaited (snd (file_download (ctx_at 1060) uuid0 None None
                     (active_world (a_txt (Some 2) None))))
       = [KV_get (activeKeyOf uuid0); R2_get (r2_key (a_txt (Some 2) None))].
Proof. repeat split; vm_compute; reflexivity. Qed.

Lemma download_decrements_stored_counter_witness :
  FILE_KV (snd (file_download (ctx_at 1010) uuid0 None None
                  (active_world (b_txt (Some 3) None)))) !! activeKeyOf uuid0
    = Some {| kv_value := b_txt (Some 2) None; expirationTtl := 3990 |}
  /\ 0 <= 3 - 1.
Proof.
  apply (download_decrements_stored_counter (ctx_at 1010) uuid0 None None
           (active_world (b_txt (Some 3) None)) (active_entry (b_txt (Some 3) None)) 3
           (download_headers (b_txt (Some 3) None)) ten_bytes).
  - vm_compute. reflexivity.
  - reflexivity.
  - simpl. lia.
  - vm_compute. reflexivity.
Defined.

(** Ten seconds after the upload of a one-minute file with three
    downloads left, the put back asks for a TTL of 50 and the request is
    answered 500. *)
Lemma download_put_back_rejected_witness :
  exists w',
    file_download (ctx_at 1010) uuid0 None None (active_world (a_txt (Some 3) None))
      = (JsonError INTERNAL_ERROR 500, w')
    /\ awaited w' = [KV_get (activeKeyOf uuid0);
                     KV_put (activeKeyOf uuid0) (a_txt (Some 2) None) 50]
    /\ FILE_KV w' = FILE_KV (active_world (a_txt (Some 3) None))
    /\ R2_BUCKET w' = R2_BUCKET (active_world (a_txt (Some 3) None))
    /\ waitUntil w' = [].
Proof.
  apply (download_put_back_rejected (ctx_at 1010) uuid0 None None
           (active_world (a_txt (Some 3) None)) (active_entry (a_txt (Some 3) None)) 3).
  - vm_compute. reflexivity.
  - reflexivity.
  - lia.
  - exact I.
  - vm_compute. split; reflexivity.
Defined.

(** C6, the code at the failing input.  A file is announced for 60
    seconds at second 1000 and its ten bytes are put at second 1001; the
    finalize at second 1002, with 58 seconds left, probes the blob, asks the
    store for an active record with a TTL of 58 and is answered 500.  No
    active record is written and the pending record stays. *)
Theorem finalize_of_a_one_minute_file_fails :
  fst (run [Serve (ctx_at 1000) (POST_upload_init uuid0 (Some (init_a_txt 10 (Some 1) None)));
            Serve (ctx_at 1001) (PUT_upload_put uuid0 (Some 1600) (Some ten_bytes));
            Serve (ctx_at 1002) (POST_upload_finalize (Some {| file_uuid := uuid0 |}))]
         empty_world)
    = [InitOk {| upload_url :=
                   "http://localhost:8787/api/v1/upload/put/3f2c8a1e-0000-4000-8000-000000000001?expires=1600";
                 init_file_uuid := uuid0; init_expires_at := 1060 |};
       PutOk uuid0;
       JsonError INTERNAL_ERROR 500]
  /\ (exists w',
        upload_finalize (ctx_at 1002) (Some {| file_uuid := uuid0 |})
            (pending_world (a_txt (Some 1) None) true)
          = (JsonError INTERNAL_ERROR 500, w')
        /\ awaited w' = [KV_get (pendingKeyOf uuid0);
                         R2_head (r2_key (a_txt (Some 1) None));
                         KV_put (activeKeyOf uuid0) (a_txt (Some 1) None) 58]
        /\ FILE_KV w' !! activeKeyOf uuid0 = None
        /\ FILE_KV w' !! pendingKeyOf uuid0
             = Some {| kv_value := a_txt (Some 1) None; expirationTtl := 900 |}).
Proof.
  split; [vm_compute; reflexivity |].
  destruct (finalize_put_rejected (ctx_at 1002) uuid0
              (pending_world (a_txt (Some 1) None) true)
              {| kv_value := a_txt (Some 1) None; expirationTtl := 900 |} a_txt_blob)
    as (w' & Hrun & Htrace & Hkv & _).
  - discriminate.
  - vm_compute. reflexivity.
  - vm_compute. reflexivity.
  - vm_compute. split; reflexivity.
  - exists w'. split; [exact Hrun |]. split; [exact Htrace |]. rewrite Hkv.
    split; vm_compute; reflexivity.
Qed.

Lemma finalize_succeeds_once_witness :
  exists w1,
    upload_finalize (ctx_at 1005) (Some {| file_uuid := uuid0 |})
        (pending_world (b_txt (Some 1) None) true)
      = (FinalizeOk {| download_link :=
                         "http://localhost:8787/d/3f2c8a1e-0000-4000-8000-000000000001";
                       status := active |}, w1)
    /\ awaited w1 = [KV_get (pendingKeyOf uuid0);
                     R2_head (r2_key (b_txt (Some 1) None));
                     KV_put (activeKeyOf uuid0) (b_txt (Some 1) None) 3995;
                     KV_delete (pendingKeyOf uuid0)]
    /\ FILE_KV w1 !! activeKeyOf uuid0
         = Some {| kv_value := b_txt (Some 1) None; expirationTtl := 3995 |}
    /\ FILE_KV_expiration w1 !! activeKeyOf uuid0 = Some 5000
    /\ FILE_KV w1 !! pendingKeyOf uuid0 = None
    /\ fst (upload_finalize (ctx_at 1006) (Some {| file_uuid := uuid0 |}) w1)
         = JsonError NOT_FOUND 404.
Proof.
  destruct (finalize_succeeds_once (ctx_at 1005) (ctx_at 1006) uuid0
              (pending_world (b_txt (Some 1) None) true)
              {| kv_value := b_txt (Some 1) None; expirationTtl := 900 |} a_txt_blob)
    as (w1 & Hrun & Htrace & Hactive & Hexp & Hpending & w2 & Hagain & _).
  - discriminate.
  - vm_compute. reflexivity.
  - vm_compute. reflexivity.
  - vm_compute. discriminate.
  - exists w1. rewrite Hagain.
    split; [exact Hrun |]. split; [exact Htrace |].
    split; [exact Hactive |]. split; [exact Hexp |].
    split; [exact Hpending | reflexivity].
Defined.

Lemma finalize_without_blob_fails_witness :
  exists w',
    upload_finalize (ctx_at 1005) (Some {| file_uuid := uuid0 |})
        (pending_world (a_txt (Some 1) None) false)
      = (JsonError FILE_MISSING 404, w')
    /\ FILE_KV w' = FILE_KV (pending_world (a_txt (Some 1) None) false)
    /\ FILE_KV w' !! activeKeyOf uuid0 = None.
Proof.
  destruct (finalize_without_blob_fails (ctx_at 1005) uuid0
              (pending_world (a_txt (Some 1) None) false)
              {| kv_value := a_txt (Some 1) None; expirationTtl := 900 |})
    as (w' & Hrun & Hkv & _).
  - discriminate.
  - vm_compute. reflexivity.
  - vm_compute. reflexivity.
  - exists w'. rewrite Hkv.
    split; [exact Hrun |]. split; [reflexivity | vm_compute; reflexivity].
Defined.

(** The record expired at second 1060; at second 2000 the info route still
    serves it, while the download route reports it expired. *)
Lemma file_info_serves_expired_record_witness :
  expires_at (a_txt (Some 2) (Some (hashPassword "hunter2"))) < now (ctx_at 2000)
  /\ fst (file_info (ctx_at 2000) uuid0
            (active_world (a_txt (Some 2) (Some (hashPassword "hunter2")))))
       = InfoOk {| info_filename := "a.txt"; info_size := 10; info_mime := "text/plain";
                   info_uploaded_at := 1000; info_expires_at := 1060;
                   info_downloads_left := Some 2; has_password := true |}
  /\ fst (file_download (ctx_at 2000) uuid0 (Some "hunter2") None
            (active_world (a_txt (Some 2) (Some (hashPassword "hunter2")))))
       = JsonError EXPIRED 410.
Proof.
  split; [simpl; lia |].
  split; [| vm_compute; reflexivity].
  rewrite (file_info_serves_expired_record (ctx_at 2000) uuid0
             (active_world (a_txt (Some 2) (Some (hashPassword "hunter2"))))
             (active_entry (a_txt (Some 2) (Some (hashPassword "hunter2"))))).
  - vm_compute. reflexivity.
  - vm_compute. reflexivity.
Defined.


(** ** The whole life of a one-download file

    The first download streams the ten bytes as the last download, the
    second finds nothing. *)

Example lifecycle_of_a_one_download_file :
  lifecycle_responses =
    [ InitOk {| upload_url :=
                  "http://localhost:8787/api/v1/upload/put/3f2c8a1e-0000-4000-8000-000000000001?expires=1600";
                init_file_uuid := uuid0; init_expires_at := 5000 |};
      PutOk uuid0;
      FinalizeOk {| download_link :=
                      "http://localhost:8787/d/3f2c8a1e-0000-4000-8000-000000000001";
                    status := active |};
      FileStream (download_headers (b_txt (Some 1) None)) ten_bytes true;
      JsonError NOT_FOUND 404 ].
Proof. vm_compute. reflexivity. Qed.

(** Finalize before any byte was put answers FILE_MISSING, and neither
    the info nor the download route sees the file. *)
Example nothing_served_before_finalize :
  let w1 := snd (upload_init (ctx_at 1000) uuid0 (Some (init_a_txt 10 (Some 1) None))
                   empty_world) in
  fst (upload_finalize (ctx_at 1002) (Some {| file_uuid := uuid0 |}) w1)
    = JsonError FILE_MISSING 404
  /\ fst (file_info (ctx_at 1002) uuid0 w1) = JsonError NOT_FOUND 404
  /\ fst (file_download (ctx_at 1002) uuid0 None None w1) = JsonError NOT_FOUND 404.
Proof. vm_compute. repeat split; reflexivity. Qed.

(** On the second [expires_at] itself a file limited to two downloads is
    served three times in a row, none of them counted. *)
Example uncounted_downloads_on_expiry_second :
  fst (serve_downloads env0 uuid0 [req_at 1060; req_at 1060; req_at 1060]
         (active_world (a_txt (Some 2) None)))
    = repeat (FileStream (download_headers (a_txt (Some 2) None)) ten_bytes false) 3.
Proof. vm_compute. reflexivity. Qed.

(** ** Concrete runs of the further properties *)

Lemma upload_init_rejections_write_nothing_witness :
  snd (upload_init (ctx_at 1000) uuid0 (Some (init_a_txt 104857601 None None)) empty_world)
    = empty_world
  /\ fst (upload_init (ctx_at 1000) uuid0 (Some (init_a_txt 104857601 None None)) empty_world)
       = JsonError FILE_TOO_LARGE 413
  /\ is_error (fst (upload_init (ctx_at 1000) uuid0
                      (Some (init_a_txt 104857600 None None)) empty_world)) = false.
Proof.
  split; [| split].
  - apply (proj1 (upload_init_rejections_write_nothing (ctx_at 1000) uuid0
                    (Some (init_a_txt 104857601 None None)) empty_world)).
    vm_compute. reflexivity.
  - apply (proj2 (upload_init_rejections_write_nothing (ctx_at 1000) uuid0
                    (Some (init_a_txt 104857601 None None)) empty_world)
             (init_a_txt 104857601 None None) eq_refl); [discriminate | discriminate |].
    simpl. lia.
  - apply (proj2 (upload_init_rejections_write_nothing (ctx_at 1000) uuid0
                    (Some (init_a_txt 104857600 None None)) empty_world)
             (init_a_txt 104857600 None None) eq_refl); [discriminate | discriminate |].
    simpl. lia.
Defined.

Lemma upload_init_accepted_witness :
  exists r w1 m,
    upload_init (ctx_at 1000) uuid0 (Some (init_a_txt 10 (Some 0) (Some "hunter2")))
        empty_world = (InitOk r, w1)
    /\ init_expires_at r = 1060
    /\ FILE_KV w1 !! pendingKeyOf uuid0 = Some {| kv_value := m; expirationTtl := 900 |}
    /\ expires_at m = 1060
    /\ r2_key m = "uploads/3f2c8a1e-0000-4000-8000-000000000001/a.txt"
    /\ counter_ok (downloads_left m) = true.
Proof.
  destruct (upload_init_accepted (ctx_at 1000) uuid0
              (init_a_txt 10 (Some 0) (Some "hunter2")) empty_world)
    as (r & w1 & m & Hrun & _ & Hexp & Hkv & _ & _ & Hm & _ & _ & Hkey & Hcount).
  - discriminate.
  - discriminate.
  - simpl. lia.
  - exists r, w1, m. split; [exact Hrun |]. split; [exact Hexp |].
    split; [rewrite Hkv; apply lookup_insert_eq |].
    split; [rewrite Hm; exact Hexp |]. split; [exact Hkey | exact Hcount].
Defined.

Lemma nothing_served_before_finalize_general_witness :
  fst (file_info (ctx_at 1002) uuid0
         (snd (upload_put (ctx_at 1001) uuid0 (Some 1600) (Some ten_bytes)
                 (snd (upload_init (ctx_at 1000) uuid0
                         (Some (init_a_txt 10 (Some 1) None)) empty_world)))))
    = JsonError NOT_FOUND 404
  /\ fst (file_download (ctx_at 1002) uuid0 None None
            (snd (upload_put (ctx_at 1001) uuid0 (Some 1600) (Some ten_bytes)
                    (snd (upload_init (ctx_at 1000) uuid0
                            (Some (init_a_txt 10 (Some 1) None)) empty_world)))))
       = JsonError NOT_FOUND 404.
Proof.
  apply (nothing_served_before_finalize_general (ctx_at 1000) (ctx_at 1001) (ctx_at 1002)
           (ctx_at 1002) uuid0 (Some (init_a_txt 10 (Some 1) None)) (Some 1600)
           (Some ten_bytes) None None empty_world).
  vm_compute. reflexivity.
Defined.

Lemma upload_put_refusals_change_nothing_witness :
  upload_put (ctx_at 1601) uuid0 (Some 1600) (Some ten_bytes)
      (pending_world (a_txt None None) false)
    = (JsonError UPLOAD_EXPIRED 410, pending_world (a_txt None None) false)
  /\ R2_BUCKET (snd (upload_put (ctx_at 1001) uuid0 (Some 1600) None
                       (pending_world (a_txt None None) false))) = ∅.
Proof.
  split.
  - apply (proj1 (upload_put_refusals_change_nothing (ctx_at 1601) uuid0 (Some 1600)
                    (Some ten_bytes) (pending_world (a_txt None None) false)) 1600 eq_refl).
    simpl. lia.
  - apply (proj2 (upload_put_refusals_change_nothing (ctx_at 1001) uuid0 (Some 1600)
                    None (pending_world (a_txt None None) false))).
    vm_compute. reflexivity.
Defined.

Lemma upload_put_last_write_wins_witness :
  exists w1 w2 o,
    upload_put (ctx_at 1001) uuid0 (Some 1600) (Some [x00])
        (pending_world (a_txt None None) false) = (PutOk uuid0, w1)
    /\ upload_put (ctx_at 1002) uuid0 None (Some ten_bytes) w1 = (PutOk uuid0, w2)
    /\ R2_BUCKET w2 !! r2_key (a_txt None None) = Some o
    /\ r2_body o = ten_bytes
    /\ httpMetadata_contentType o = "text/plain"
    /\ FILE_KV w2 = FILE_KV (pending_world (a_txt None None) false).
Proof.
  apply (upload_put_last_write_wins (ctx_at 1001) (ctx_at 1002) uuid0 (Some 1600) None
           [x00] ten_bytes (pending_world (a_txt None None) false)
           {| kv_value := a_txt None None; expirationTtl := 900 |}).
  - vm_compute. reflexivity.
  - intros t [= <-]. simpl. lia.
  - intros t Ht. discriminate Ht.
Defined.

Lemma upload_finalize_errors_change_nothing_witness :
  FILE_KV (snd (upload_finalize (ctx_at 1002) (Some {| file_uuid := uuid0 |})
                  (pending_world (a_txt None None) false)))
    = FILE_KV (pending_world (a_txt None None) false).
Proof.
  apply (proj2 (upload_finalize_errors_change_nothing (ctx_at 1002)
                  (Some {| file_uuid := uuid0 |}) (pending_world (a_txt None None) false))).
  vm_compute. reflexivity.
Defined.

Lemma upload_finalize_too_late_witness :
  exists w',
    upload_finalize (ctx_at 1060) (Some {| file_uuid := uuid0 |})
        (pending_world (a_txt None None) true) = (JsonError EXPIRED 410, w')
    /\ FILE_KV w' = FILE_KV (pending_world (a_txt None None) true)
    /\ R2_BUCKET w' = R2_BUCKET (pending_world (a_txt None None) true).
Proof.
  apply (upload_finalize_too_late (ctx_at 1060) uuid0 (pending_world (a_txt None None) true)
           {| kv_value := a_txt None None; expirationTtl := 900 |} a_txt_blob).
  - discriminate.
  - vm_compute. reflexivity.
  - vm_compute. reflexivity.
  - simpl. lia.
Defined.

Lemma upload_put_after_finalize_refused_witness :
  fst (upload_put (ctx_at 1003) uuid0 (Some 1600) (Some [x00])
         (snd (upload_finalize (ctx_at 1002) (Some {| file_uuid := uuid0 |})
                 (pending_world (b_txt None None) true))))
    = JsonError NOT_FOUND 404
  /\ R2_BUCKET (snd (upload_put (ctx_at 1003) uuid0 (Some 1600) (Some [x00])
                       (snd (upload_finalize (ctx_at 1002) (Some {| file_uuid := uuid0 |})
                               (pending_world (b_txt None None) true)))))
       = R2_BUCKET (snd (upload_finalize (ctx_at 1002) (Some {| file_uuid := uuid0 |})
                           (pending_world (b_txt None None) true))).
Proof.
  destruct (upload_put_after_finalize_refused (ctx_at 1002) (ctx_at 1003) uuid0 (Some 1600)
              (Some [x00]) (pending_world (b_txt None None) true)
              {| download_link := "http://localhost:8787/d/3f2c8a1e-0000-4000-8000-000000000001";
                 status := active |}
              (snd (upload_finalize (ctx_at 1002) (Some {| file_uuid := uuid0 |})
                      (pending_world (b_txt None None) true))))
    as (_ & Hnf & Hr2).
  - vm_compute. reflexivity.
  - split; [| exact Hr2]. apply Hnf. intros t [= <-]. simpl. lia.
Defined.

Lemma download_refused_password_costs_nothing_witness :
  file_download (ctx_at 1001) uuid0 None (Some "hunter3")
      (active_world (a_txt (Some 1) (Some (hashPassword "hunter2"))))
    = (JsonError INVALID_PASSWORD 403,
       call (KV_get (activeKeyOf uuid0))
         (active_world (a_txt (Some 1) (Some (hashPassword "hunter2")))))
  /\ file_download (ctx_at 1001) uuid0 (Some EmptyString) None
       (active_world (a_txt (Some 1) (Some (hashPassword "hunter2"))))
     = (JsonError PASSWORD_REQUIRED 401,
        call (KV_get (activeKeyOf uuid0))
          (active_world (a_txt (Some 1) (Some (hashPassword "hunter2"))))).
Proof.
  split.
  - apply (proj2 (download_refused_password_costs_nothing (ctx_at 1001) uuid0 None
                    (Some "hunter3")
                    (active_world (a_txt (Some 1) (Some (hashPassword "hunter2"))))
                    (active_entry (a_txt (Some 1) (Some (hashPassword "hunter2"))))
                    (hashPassword "hunter2")
                    ltac:(vm_compute; reflexivity) ltac:(simpl; lia) eq_refl eq_refl)).
    + discriminate.
    + vm_compute. discriminate.
  - apply (proj1 (download_refused_password_costs_nothing (ctx_at 1001) uuid0
                    (Some EmptyString) None
                    (active_world (a_txt (Some 1) (Some (hashPassword "hunter2"))))
                    (active_entry (a_txt (Some 1) (Some (hashPassword "hunter2"))))
                    (hashPassword "hunter2")
                    ltac:(vm_compute; reflexivity) ltac:(simpl; lia) eq_refl eq_refl)).
    reflexivity.
Defined.

Lemma download_password_source_witness :
  file_download (ctx_at 1001) uuid0 (Some "hunter2") (Some "other")
      (active_world (a_txt None (Some (hashPassword "hunter2"))))
    = file_download (ctx_at 1001) uuid0 (Some "hunter2") None
        (active_world (a_txt None (Some (hashPassword "hunter2")))).
Proof.
  apply (proj1 (download_password_source (ctx_at 1001) uuid0
                  (active_world (a_txt None (Some (hashPassword "hunter2")))))).
  discriminate.
Defined.


Lemma download_missing_blob_cleans_up_witness :
  exists w',
    file_download (ctx_at 1001) uuid0 (Some "hunter2") None
        (blobless_world (b_txt (Some 3) (Some (hashPassword "hunter2"))))
      = (JsonError FILE_MISSING 404, w')
    /\ FILE_KV w' !! activeKeyOf uuid0 = None.
Proof.
  destruct (download_missing_blob_cleans_up (ctx_at 1001) uuid0 (Some "hunter2") None
              (blobless_world (b_txt (Some 3) (Some (hashPassword "hunter2"))))
              (active_entry (b_txt (Some 3) (Some (hashPassword "hunter2")))))
    as (w' & Hrun & Hkv & _).
  - vm_compute. reflexivity.
  - simpl. lia.
  - reflexivity.
  - intros n _ _. right. vm_compute. discriminate.
  - split; [discriminate | reflexivity].
  - vm_compute. reflexivity.
  - exists w'. split; [exact Hrun |]. rewrite Hkv. apply lookup_delete_eq.
Defined.

Lemma download_cleanup_converges_witness :
  FILE_KV (snd (file_download (ctx_at 1001) uuid0 None None
                  (active_world (a_txt (Some 1) None)))) !! activeKeyOf uuid0 = None
  /\ fst (file_download (ctx_at 1002) uuid0 None None
            (snd (file_download (ctx_at 1001) uuid0 None None
                    (active_world (a_txt (Some 1) None)))))
       = JsonError NOT_FOUND 404.
Proof.
  destruct (download_cleanup_converges (ctx_at 1001) uuid0 None None
              (active_world (a_txt (Some 1) None))) as [Hgone Hnext].
  - vm_compute. reflexivity.
  - split; [exact Hgone |]. apply (proj1 (Hnext (ctx_at 1002) None None)).
Defined.

Lemma expired_download_strands_blob_witness :
  fst (file_download (ctx_at 1061) uuid0 None None (active_world (a_txt None None)))
    = JsonError EXPIRED 410
  /\ R2_BUCKET (snd (file_download (ctx_at 1061) uuid0 None None
                       (active_world (a_txt None None)))) !! r2_key (a_txt None None)
       = Some a_txt_blob
  /\ fst (file_delete (ctx_at 1062) uuid0
            (snd (file_download (ctx_at 1061) uuid0 None None
                    (active_world (a_txt None None)))))
       = JsonError NOT_FOUND 404.
Proof.
  destruct (expired_download_strands_blob (ctx_at 1061) (ctx_at 1062) uuid0 None None
              (active_world (a_txt None None)) (active_entry (a_txt None None)) a_txt_blob)
    as (Hexp & _ & Hblob & Hdel & _).
  - vm_compute. reflexivity.
  - vm_compute. reflexivity.
  - simpl. lia.
  - split; [exact Hexp |]. split; [exact Hblob | exact Hdel].
Defined.

Lemma app_leaves_other_uuids_alone_witness :
  FILE_KV (snd (app (ctx_at 1002) (DELETE_file uuid1) (active_world (a_txt None None))))
    !! activeKeyOf uuid0 = Some (active_entry (a_txt None None)).
Proof.
  rewrite (proj2 (app_leaves_other_uuids_alone (ctx_at 1002) (DELETE_file uuid1)
                    (active_world (a_txt None None)) uuid0 ltac:(discriminate))).
  vm_compute. reflexivity.
Defined.

Lemma only_put_writes_blobs_witness :
  R2_BUCKET (active_world (b_txt (Some 2) None)) !! r2_key (b_txt None None)
    = Some a_txt_blob.
Proof.
  apply (proj1 (only_put_writes_blobs (ctx_at 1001) (GET_file_download uuid0 None None)
                  (active_world (b_txt (Some 2) None)) (r2_key (b_txt None None)) a_txt_blob
                  ltac:(discriminate))).
  vm_compute. reflexivity.
Defined.

Lemma limit_reached_is_never_answered_witness :
  Forall (fun resp => forall st, resp <> JsonError LIMIT_REACHED st)
    (fst (run lifecycle_steps empty_world))
  /\ length (fst (run lifecycle_steps empty_world)) = 7%nat.
Proof.
  split; [| vm_compute; reflexivity].
  apply (limit_reached_is_never_answered lifecycle_steps empty_world).
  unfold counters_positive. simpl. apply map_Forall_empty.
Defined.


Lemma short_link_forwards_query_witness :
  short_link (ctx_at 1000) uuid0 "http://localhost:8787/d/x"
    = ("http://localhost:8787/api/v1/file/3f2c8a1e-0000-4000-8000-000000000001/download", 302)
  /\ short_link (ctx_at 1000) uuid0 ("http://localhost:8787/d/x" ++ "?" ++ "password=a")
       = ("http://localhost:8787/api/v1/file/3f2c8a1e-0000-4000-8000-000000000001/download?password=a", 302)
  /\ short_link (ctx_at 1000) uuid0
       ("http://localhost:8787/d/x" ++ "?" ++ "password=a" ++ "?" ++ "b")
       = ("http://localhost:8787/api/v1/file/3f2c8a1e-0000-4000-8000-000000000001/download?password=a", 302).
Proof.
  apply (short_link_forwards_query (ctx_at 1000) uuid0 "http://localhost:8787/d/x"
           "password=a" "b"); reflexivity.
Defined.

Lemma short_link_agrees_with_getDownloadUrl_witness :
  short_link (ctx_at 1000) uuid0
      ("http://localhost:8787/d/x" ++ "?password=" ++ encodeURIComponent "a?b c")
    = ("http://localhost:8787/api/v1/file/3f2c8a1e-0000-4000-8000-000000000001/download?password=a%3Fb%20c", 302).
Proof.
  apply (proj2 (short_link_agrees_with_getDownloadUrl (ctx_at 1000) uuid0
                  "http://localhost:8787/d/x" "a?b c" ltac:(discriminate) eq_refl eq_refl)).
Defined.

Lemma formatTimeLeft_counts_whole_units_witness :
  formatTimeLeft 1060 1060 = "Expired"
  /\ exists n unit,
       formatTimeLeft 1000 8199 = toString n ++ unit
       /\ 1 <= n
       /\ (unit = "s" /\ n = 8199 - 1000 /\ n < 60
           \/ unit = "m" /\ 60 * n <= 8199 - 1000 < 60 * (n + 1) /\ n < 60
           \/ unit = "h" /\ 3600 * n <= 8199 - 1000 < 3600 * (n + 1) /\ n < 24
           \/ unit = "d" /\ 86400 * n <= 8199 - 1000 < 86400 * (n + 1)).
Proof.
  split.
  - apply (proj1 (formatTimeLeft_counts_whole_units 1060 1060)). simpl. lia.
  - apply (proj2 (formatTimeLeft_counts_whole_units 1000 8199)). simpl. lia.
Defined.


Example formatTimeLeft_two_hours : formatTimeLeft 1000 8199 = "1h".
Proof. vm_compute. reflexivity. Qed.

Example hashPassword_has_64_characters : String.length (hashPassword "hunter2") = 64%nat.
Proof. vm_compute. reflexivity. Qed.


